(** * Loading postal-code files into per-country collections

    A shallow embedding of [load_zip_codes_to_mongo.py]: the three field
    mappers ([map_es_fields], [map_us_fields], [map_ca_fields_flexible]) and
    the generic row loop and batch writer of [process_file], followed by the
    properties of the specification that are stated about them.

    Python objects are modelled as follows.
    - A row is the [list string] that [csv.reader] yields for one line.
    - A document is a Python [dict] from field names to values: a
      [gmap string value].  A key bound to [VNone] is a field stored as [None]
      (the specification's "absent"); a key that is not bound at all is a
      field the dict does not contain.
    - A Python [float] is a binary64 number, Rocq's primitive [float];
      a Python [int] is a [Z].
    - A computation that may print and may raise is a value of [py A]: the
      lines printed, and either the value returned or the exception raised.
    - The interpreter's [float], [int], [str.isalpha], [str.isdigit] and
      the formatting of a row are a parameter ([Builtins]); the general
      statements hold whatever they do, and the examples run the ones of
      CPython on ASCII strings ([cpython]).
    - The database is a finite map from collection names to the documents
      stored, together with the trace of the calls made on it. *)

From Stdlib Require Import ZArith Ascii PrimFloat FloatOps SpecFloat.
From stdpp Require Import gmap strings list fin_maps pretty.

Set Warnings "-inexact-float".
#[local] Open Scope Z_scope.

(** ** Values, exceptions and the [py] monad *)

Inductive value : Type :=
  | VNone
  | VStr (s : string)
  | VFloat (x : float)
  | VInt (n : Z).

Abbreviation dict := (gmap string value).

(** The two exception classes the program can meet while it maps a row;
    both are subclasses of [Exception].  The argument is the message. *)
Inductive exn : Type :=
  | ValueError (msg : string)
  | IndexError (msg : string).

(** [str(e)] *)
Definition str_exn (e : exn) : string :=
  match e with
  | ValueError msg => msg
  | IndexError msg => msg
  end.

Inductive result (A : Type) : Type :=
  | Return (a : A)
  | Raise (e : exn).
Arguments Return {A} a.
Arguments Raise {A} e.

(** Lines printed so far, and how the computation ended. *)
Definition py (A : Type) : Type := (list string * result A)%type.

#[global] Instance py_ret : MRet py := λ A a, ([], Return a).

#[global] Instance py_bind : MBind py := λ A B k m,
  match m with
  | (out, Return a) => let '(out', r) := k a in (out ++ out', r)
  | (out, Raise e) => (out, Raise e)
  end.

Definition raise {A : Type} (e : exn) : py A := ([], Raise e).

Definition print (line : string) : py unit := ([line], Return tt).

(** [try: body except (IndexError, ValueError) as e: handler] and
    [try: body except Exception as e: handler] when [handler] is total. *)
Definition try_except {A : Type} (body : py A) (handler : exn → py A) : py A :=
  match body with
  | (out, Return a) => (out, Return a)
  | (out, Raise e) => let '(out', r) := handler e in (out ++ out', r)
  end.

(** [len(l)] *)
Definition len {A : Type} (l : list A) : Z := Z.of_nat (length l).

(** Truth value of a [str]: false exactly for the empty string. *)
Definition truth (s : string) : bool :=
  match s with
  | EmptyString => false
  | String _ _ => true
  end.

(** Truth value of a [list]: false exactly for the empty list. *)
Definition nonempty {A : Type} (l : list A) : bool :=
  match l with
  | [] => false
  | _ :: _ => true
  end.

(** [sep.join(l)] *)
Fixpoint join (sep : string) (l : list string) : string :=
  match l with
  | [] => ""
  | [s] => s
  | s :: l' => s +:+ sep +:+ join sep l'
  end.

(** [str(l)] for a list of ints, as an f-string puts it. *)
Definition str_ints (l : list Z) : string := "[" +:+ join ", " (pretty <$> l) +:+ "]".

(** [row[i]] for a literal index [i >= 0]. *)
Definition getitem (row : list string) (i : nat) : py string :=
  match row !! i with
  | Some c => mret c
  | None => raise (IndexError "list index out of range")
  end.

(** A dict display [{k1: v1, ..., kn: vn}]: the items are inserted from left
    to right. *)
Definition dict_display (items : list (string * value)) : dict :=
  foldl (λ d kv, <[kv.1 := kv.2]> d) ∅ items.

(** Assignments [doc[k1] = e1; ...; doc[kn] = en] on one dict object, as the
    body of a [try] block: the first [ei] that raises ends the block, and the
    assignments made before it stay in the dict. *)
Fixpoint assign_all (stmts : list (string * py value)) (doc : dict) : dict * py unit :=
  match stmts with
  | [] => (doc, mret tt)
  | (k, (out, Return v)) :: rest =>
      let '(doc', (out', r)) := assign_all rest (<[k := v]> doc) in
      (doc', (out ++ out', r))
  | (k, (out, Raise e)) :: rest => (doc, (out, Raise e))
  end.

(** ** The built-in functions the program calls

    [float(s)] and [int(s)] on a [str] return a number or raise [ValueError]
    with a message; [s.isalpha()], [s.isdigit()] and the text an f-string
    puts for a list of strings are the interpreter's.  The mappers and the
    row loop are defined over any such functions; [cpython] below gives the
    ones of CPython on ASCII strings. *)
Class Builtins : Type := {
  float_of_str : string → string + float;
  int_of_str : string → string + Z;
  isalpha : string → bool;
  isdigit : string → bool;
  str_row : list string → string;
}.

Section Mappers.
Context {B : Builtins}.

(** [float(s)] *)
Definition py_float (s : string) : py float :=
  match float_of_str s with
  | inr x => mret x
  | inl msg => raise (ValueError msg)
  end.

(** [int(s)] *)
Definition py_int (s : string) : py Z :=
  match int_of_str s with
  | inr n => mret n
  | inl msg => raise (ValueError msg)
  end.

(** [row[i] if row[i] else None] *)
Definition str_or_none (row : list string) (i : nat) : py value :=
  c ← getitem row i;
  if truth c then c' ← getitem row i; mret (VStr c') else mret VNone.

(** [row[i] if len(row) > i and row[i] else None] *)
Definition str_in_range_or_none (row : list string) (i : nat) : py value :=
  if len row >? Z.of_nat i then str_or_none row i else mret VNone.

(** [float(row[i]) if row[i] else None] *)
Definition float_or_none (row : list string) (i : nat) : py value :=
  c ← getitem row i;
  if truth c then c' ← getitem row i; x ← py_float c'; mret (VFloat x)
  else mret VNone.

(** [int(row[i]) if row[i] else None] *)
Definition int_or_none (row : list string) (i : nat) : py value :=
  c ← getitem row i;
  if truth c then c' ← getitem row i; n ← py_int c'; mret (VInt n)
  else mret VNone.

(** ** Field mappers (lines 87-163) *)

Definition map_es_fields (row : list string) : py dict :=
  country_code ← getitem row 0;
  postal_code ← getitem row 1;
  place_name ← getitem row 2;
  admin1_name ← getitem row 3;
  admin1_code ← getitem row 4;
  admin2_name ← getitem row 5;
  admin2_code ← getitem row 6;
  admin3_name ← str_or_none row 7;
  admin3_code ← str_or_none row 8;
  latitude ← float_or_none row 9;
  longitude ← float_or_none row 10;
  accuracy ← int_or_none row 11;
  mret (dict_display [
    ("country_code", VStr country_code);
    ("postal_code", VStr postal_code);
    ("place_name", VStr place_name);
    ("admin1_name", VStr admin1_name);
    ("admin1_code", VStr admin1_code);
    ("admin2_name", VStr admin2_name);
    ("admin2_code", VStr admin2_code);
    ("admin3_name", admin3_name);
    ("admin3_code", admin3_code);
    ("latitude", latitude);
    ("longitude", longitude);
    ("accuracy", accuracy) ]).

Definition map_us_fields (row : list string) : py dict :=
  country_code ← getitem row 0;
  postal_code ← getitem row 1;
  place_name ← getitem row 2;
  admin1_name ← getitem row 3;
  admin1_code ← getitem row 4;
  admin2_name ← getitem row 5;
  admin2_code ← getitem row 6;
  latitude ← float_or_none row 9;
  longitude ← float_or_none row 10;
  accuracy ← int_or_none row 11;
  mret (dict_display [
    ("country_code", VStr country_code);
    ("postal_code", VStr postal_code);
    ("place_name", VStr place_name);
    ("admin1_name", VStr admin1_name);
    ("admin1_code", VStr admin1_code);
    ("admin2_name", VStr admin2_name);
    ("admin2_code", VStr admin2_code);
    ("latitude", latitude);
    ("longitude", longitude);
    ("accuracy", accuracy) ]).

(** The [try ... except (IndexError, ValueError)] block of the 10-column
    branch (lines 140-146, cells 7, 8, 9) and of the 12-column branch (lines
    153-159, cells 9, 10, 11); [columns] is the "10" or "12" of the warning. *)
Definition try_lat_lon_acc (columns : string) (i j k : nat)
    (row : list string) (doc : dict) : py dict :=
  let '(doc, body) := assign_all [
    ("latitude", float_or_none row i);
    ("longitude", float_or_none row j);
    ("accuracy", int_or_none row k) ] doc in
  try_except body (λ e,
    match e with
    | IndexError _ | ValueError _ =>
        print ("Warning: Could not parse lat/lon/acc for " +:+ columns
               +:+ "-column CA row: " +:+ str_row row
               +:+ " - Error: " +:+ str_exn e)
    end);;
  mret doc.

Definition map_ca_fields_flexible (row : list string) : py dict :=
  country_code ← getitem row 0;
  postal_code ← getitem row 1;
  place_name ← getitem row 2;
  admin1_name ← str_in_range_or_none row 3;
  admin1_code ← str_in_range_or_none row 4;
  let doc := dict_display [
    ("country_code", VStr country_code);
    ("postal_code", VStr postal_code);
    ("place_name", VStr place_name);
    ("admin1_name", admin1_name);
    ("admin1_code", admin1_code);
    ("admin2_name", VNone);
    ("admin2_code", VNone);
    ("admin3_name", VNone);
    ("admin3_code", VNone);
    ("latitude", VNone);
    ("longitude", VNone);
    ("accuracy", VNone) ] in
  let num_cols := len row in
  if num_cols =? 10 then
    v ← str_or_none row 5; let doc := <["admin2_name" := v]> doc in
    v ← str_or_none row 6; let doc := <["admin2_code" := v]> doc in
    try_lat_lon_acc "10" 7 8 9 row doc
  else if num_cols =? 12 then
    v ← str_or_none row 5; let doc := <["admin2_name" := v]> doc in
    v ← str_or_none row 6; let doc := <["admin2_code" := v]> doc in
    v ← str_or_none row 7; let doc := <["admin3_name" := v]> doc in
    v ← str_or_none row 8; let doc := <["admin3_code" := v]> doc in
    try_lat_lon_acc "12" 9 10 11 row doc
  else
    raise (ValueError ("Unexpected number of columns (" +:+ pretty num_cols
                       +:+ ") for CA data mapper. Row: " +:+ str_row row)).

End Mappers.

(** ** CPython's built-ins on ASCII strings

    [float(s)], [int(s)], [repr], [str.isalpha] and [str.isdigit] as CPython
    computes them when every character of the string is ASCII.  A decimal
    literal is converted to the nearest binary64 number, ties to even. *)
Module CPython.

Definition ord (c : ascii) : Z := Z.of_N (N_of_ascii c).

Definition in_range (lo hi : Z) (c : ascii) : bool :=
  (lo <=? ord c) && (ord c <=? hi).

(** [Py_ISSPACE]: space, and the controls from tab to carriage return. *)
Definition is_space (c : ascii) : bool := (ord c =? 32) || in_range 9 13 c.
Definition is_digit (c : ascii) : bool := in_range 48 57 c.
Definition is_letter (c : ascii) : bool := in_range 65 90 c || in_range 97 122 c.
Definition is_underscore (c : ascii) : bool := ord c =? 95.

Definition lower (c : ascii) : ascii :=
  if in_range 65 90 c then ascii_of_N (N_of_ascii c + 32) else c.

Fixpoint span {A : Type} (p : A → bool) (l : list A) : list A * list A :=
  match l with
  | [] => ([], [])
  | x :: l' =>
      if p x then let '(yes, rest) := span p l' in (x :: yes, rest)
      else ([], l)
  end.

Definition lstrip (l : list ascii) : list ascii := (span is_space l).2.
Definition strip (l : list ascii) : list ascii := rev (lstrip (rev (lstrip l))).

Fixpoint digits_value (acc : Z) (l : list ascii) : Z :=
  match l with
  | [] => acc
  | c :: l' => digits_value (10 * acc + (ord c - 48)) l'
  end.

Definition parse_sign (l : list ascii) : bool * list ascii :=
  match l with
  | c :: l' =>
      if ord c =? 45 then (true, l')
      else if ord c =? 43 then (false, l')
      else (false, l)
  | [] => (false, l)
  end.

(** *** [repr] of a string and of a list of strings *)

Definition quote1 : ascii := "'"%char.
Definition quote2 : ascii := "034"%char.
Definition backslash : ascii := "\"%char.

Definition hex_digit (n : Z) : ascii :=
  nth (Z.to_nat n) (String.list_ascii_of_string "0123456789abcdef") "0"%char.

Definition repr_char (quote c : ascii) : list ascii :=
  if Ascii.eqb c quote || Ascii.eqb c backslash then [backslash; c]
  else if ord c =? 9 then [backslash; "t"%char]
  else if ord c =? 10 then [backslash; "n"%char]
  else if ord c =? 13 then [backslash; "r"%char]
  else if (ord c <? 32) || (ord c =? 127) then
    [backslash; "x"%char; hex_digit (ord c / 16); hex_digit (ord c mod 16)]
  else [c].

Definition repr (s : string) : string :=
  let l := String.list_ascii_of_string s in
  let quote :=
    if existsb (Ascii.eqb quote1) l && negb (existsb (Ascii.eqb quote2) l)
    then quote2 else quote1 in
  String.string_of_list_ascii (quote :: flat_map (repr_char quote) l ++ [quote]).

Definition repr_list (row : list string) : string :=
  "[" +:+ join ", " (repr <$> row) +:+ "]".

(** *** [float(s)] *)

(** Underscores may stand between two digits only; they are removed before
    the number is read.  [prev] is the character before [l]. *)
Fixpoint remove_underscores (prev : ascii) (l : list ascii) : option (list ascii) :=
  match l with
  | [] => if is_underscore prev then None else Some []
  | c :: l' =>
      if is_underscore c then
        if is_digit prev then remove_underscores c l' else None
      else if is_underscore prev && negb (is_digit c) then None
      else (c ::.) <$> remove_underscores c l'
  end.

(** [m * 10^e] rounded to binary64, for a mantissa [m >= 0] written with
    [ndigits] digits.  Beyond the cut-offs the result is infinite or zero
    whatever the digits are, so the power of ten is never larger than
    [10^(ndigits + 400)]. *)
Definition float_of_decimal (neg : bool) (m e ndigits : Z) : float :=
  match m with
  | Zpos _ =>
      if 400 <? e then (if neg then neg_infinity else infinity)
      else if ndigits + e <? -400 then (if neg then neg_zero else zero)
      else
        SF2Prim (SFdiv prec emax
          (S754_finite neg (Z.to_pos (m * 10 ^ Z.max e 0)) 0)
          (S754_finite false (Z.to_pos (10 ^ Z.max (- e) 0)) 0))
  | _ => if neg then neg_zero else zero
  end.

(** The exponent part: nothing, or [e] or [E], a sign and at least one digit. *)
Definition parse_exponent (l : list ascii) : option Z :=
  match l with
  | [] => Some 0
  | c :: l' =>
      if Ascii.eqb (lower c) "e"%char then
        let '(neg, l'') := parse_sign l' in
        let '(ds, rest) := span is_digit l'' in
        match ds, rest with
        | _ :: _, [] => Some (if neg then - digits_value 0 ds else digits_value 0 ds)
        | _, _ => None
        end
      else None
  end.

Definition parse_float (l : list ascii) : option float :=
  let '(neg, l) := parse_sign l in
  let word := String.string_of_list_ascii (lower <$> l) in
  if String.eqb word "inf" || String.eqb word "infinity" then
    Some (if neg then neg_infinity else infinity)
  else if String.eqb word "nan" then Some nan
  else
    let '(ip, rest) := span is_digit l in
    let '(fp, rest) :=
      match rest with
      | c :: rest' => if ord c =? 46 then span is_digit rest' else ([], rest)
      | [] => ([], rest)
      end in
    match ip ++ fp with
    | [] => None
    | ds =>
        e ← parse_exponent rest;
        Some (float_of_decimal neg (digits_value 0 ds) (e - len fp) (len ds))
    end.

Definition float_of_str (s : string) : string + float :=
  match remove_underscores Ascii.zero (strip (String.list_ascii_of_string s))
        ≫= parse_float with
  | Some x => inr x
  | None => inl ("could not convert string to float: " +:+ repr s)
  end.

(** *** [int(s)], base 10 *)

(** A run of digits and underscores is well formed when it starts and ends
    with a digit and has no two underscores in a row. *)
Fixpoint digit_run (prev : ascii) (l : list ascii) : bool :=
  match l with
  | [] => is_digit prev
  | c :: l' => negb (is_underscore c && negb (is_digit prev)) && digit_run c l'
  end.

Definition int_max_str_digits : Z := 4300.

Definition int_of_str (s : string) : string + Z :=
  let invalid :=
    inl ("invalid literal for int() with base 10: "
         +:+ String.string_of_list_ascii (take 200 (String.list_ascii_of_string (repr s)))) in
  let '(neg, l) := parse_sign (lstrip (String.list_ascii_of_string s)) in
  let '(run, rest) := span (λ c, is_digit c || is_underscore c) l in
  let ds := filter (λ c, is_digit c = true) run in
  if negb (digit_run Ascii.zero run) then invalid
  else if int_max_str_digits <? len ds then
    inl ("Exceeds the limit (" +:+ pretty int_max_str_digits
         +:+ " digits) for integer string conversion: value has "
         +:+ pretty (len ds)
         +:+ " digits; use sys.set_int_max_str_digits() to increase the limit")
  else
    match lstrip rest with
    | [] => inr (if neg then - digits_value 0 ds else digits_value 0 ds)
    | _ :: _ => invalid
    end.

(** *** [str.isalpha] and [str.isdigit] *)

Definition isalpha (s : string) : bool :=
  truth s && forallb is_letter (String.list_ascii_of_string s).

Definition isdigit (s : string) : bool :=
  truth s && forallb is_digit (String.list_ascii_of_string s).

End CPython.

Definition cpython : Builtins := {|
  float_of_str := CPython.float_of_str;
  int_of_str := CPython.int_of_str;
  isalpha := CPython.isalpha;
  isdigit := CPython.isdigit;
  str_row := CPython.repr_list;
|}.

(** ** The database and the file system

    A collection holds the documents inserted into it, in insertion order
    (the [_id] that the driver adds to each document is left out).
    [db_calls] is the trace of the calls made on the database handle.  The
    calls are taken to succeed: a failing bulk write is outside the model. *)
Inductive db_call : Type :=
  | Drop (collection_name : string)
  | InsertMany (collection_name : string) (documents : list dict).

Record world : Type := World {
  stdout : list string;
  collections : gmap string (list dict);
  db_calls : list db_call;
}.

(** The documents of a collection; one that does not exist holds none. *)
Definition contents (w : world) (collection_name : string) : list dict :=
  default [] (collections w !! collection_name).

(** [print(line)] *)
Definition echo (line : string) (w : world) : world :=
  World (stdout w ++ [line]) (collections w) (db_calls w).

Definition echo_all (lines : list string) (w : world) : world :=
  World (stdout w ++ lines) (collections w) (db_calls w).

(** [db[collection_name].drop()] *)
Definition drop (collection_name : string) (w : world) : world :=
  World (stdout w) (delete collection_name (collections w))
        (db_calls w ++ [Drop collection_name]).

(** [db[collection_name].insert_many(documents)] *)
Definition insert_many (collection_name : string) (documents : list dict)
    (w : world) : world :=
  World (stdout w)
        (<[collection_name := contents w collection_name ++ documents]>
           (collections w))
        (db_calls w ++ [InsertMany collection_name documents]).

(** The files on disk, each as the rows [csv.reader] yields for it;
    [os.path.exists(filepath)] holds when [filepath] is bound.  A path that
    exists is taken to be a readable file: opening and decoding it do not
    fail. *)
Abbreviation files := (gmap string (list (list string))).

(** ** [process_file] (lines 34-84) *)

(** The local variables of [process_file]. *)
Record locals : Type := Locals {
  documents : list dict;
  processed_count : Z;
  skipped_count : Z;
}.

Definition BATCH_SIZE : Z := 10000.

Section ProcessFile.
Context {B : Builtins}.
Variables (filepath collection_name : string).
Variable expected_columns_list : list Z.
Variable field_mapper_func : list string → py dict.

(** Lines 53-70: the row is mapped when its length is an expected one, and
    skipped otherwise. *)
Definition classify_row (i : Z) (row : list string) (s : locals * world)
    : locals * world :=
  let '(l, w) := s in
  if bool_decide (len row ∈ expected_columns_list) then
    match field_mapper_func row with
    | (out, Return doc) =>
        (Locals (documents l ++ [doc]) (processed_count l + 1) (skipped_count l),
         echo_all out w)
    | (out, Raise (ValueError _ as e)) =>
        (Locals (documents l) (processed_count l) (skipped_count l + 1),
         echo ("Skipping row " +:+ pretty (i + 1) +:+ " in " +:+ filepath
               +:+ " due to data conversion error: " +:+ str_exn e
               +:+ " - Row: " +:+ str_row row)
              (echo_all out w))
    | (out, Raise e) =>
        (Locals (documents l) (processed_count l) (skipped_count l + 1),
         echo ("Skipping row " +:+ pretty (i + 1) +:+ " in " +:+ filepath
               +:+ " due to an unexpected error: " +:+ str_exn e
               +:+ " - Row: " +:+ str_row row)
              (echo_all out w))
    end
  else
    let is_likely_header :=
      existsb isalpha row && negb (existsb isdigit (take 2 row)) in
    let w :=
      if (i =? 0) && is_likely_header then
        echo ("Skipping likely header row in " +:+ filepath +:+ ": "
              +:+ str_row row) w
      else
        echo ("Skipping malformed row " +:+ pretty (i + 1) +:+ " in "
              +:+ filepath +:+ " (expected " +:+ str_ints expected_columns_list
              +:+ " columns, got " +:+ pretty (len row) +:+ "): "
              +:+ str_row row) w in
    (Locals (documents l) (processed_count l) (skipped_count l + 1), w).

(** Lines 72-75: a full batch is written and the buffer reset. *)
Definition flush_full_batch (s : locals * world) : locals * world :=
  let '(l, w) := s in
  if len (documents l) >=? BATCH_SIZE then
    if nonempty (documents l) then
      (Locals [] (processed_count l) (skipped_count l),
       insert_many collection_name (documents l) w)
    else s
  else s.

(** Lines 52-75: [for i, row in enumerate(reader)], from index [i] on. *)
Fixpoint for_rows (i : Z) (rows : list (list string)) (s : locals * world)
    : locals * world :=
  match rows with
  | [] => s
  | row :: rows' =>
      for_rows (i + 1) rows' (flush_full_batch (classify_row i row s))
  end.

(** Lines 46-78: the loop over the file and the write of what is left. *)
Definition load_rows (rows : list (list string)) (w : world) : locals * world :=
  let '(l, w) := for_rows 0 rows (Locals [] 0 0, w) in
  if nonempty (documents l) then (l, insert_many collection_name (documents l) w)
  else (l, w).

Definition process_file (fs : files) (w : world) : world :=
  match fs !! filepath with
  | None =>
      echo ("Error: File not found - " +:+ filepath +:+ ". Skipping this file.") w
  | Some rows =>
      let w := drop collection_name w in
      let w := echo ("Processing " +:+ filepath +:+ " into '" +:+ collection_name
                     +:+ "' collection...") w in
      let '(l, w) := load_rows rows w in
      let w := echo ("Finished processing " +:+ filepath +:+ ".") w in
      let w := echo ("Inserted " +:+ pretty (processed_count l)
                     +:+ " documents into '" +:+ collection_name +:+ "'.") w in
      let w :=
        if skipped_count l >? 0 then
          echo ("Skipped " +:+ pretty (skipped_count l) +:+ " rows from "
                +:+ filepath +:+ ".") w
        else w in
      echo "------------------------------" w
  end.

End ProcessFile.

(** ** The three calls of the main program (lines 165-181)

    [main] is the run after [connect_to_db] has returned a database handle;
    a failed connection exits before any file is read. *)
Definition ES_FILE : string := "ES.txt".
Definition US_FILE : string := "US.txt".
Definition CA_FILE : string := "CA_full.txt".

Definition main `{!Builtins} (fs : files) (w : world) : world :=
  let w := echo "Starting zip code import process..." w in
  let w := echo "Successfully connected to MongoDB!" w in
  let w := process_file ES_FILE "es_zip_codes" [12] map_es_fields fs w in
  let w := process_file US_FILE "us_zip_codes" [12] map_us_fields fs w in
  let w := process_file CA_FILE "ca_zip_codes" [10; 12] map_ca_fields_flexible fs w in
  echo "All files processed. Data import complete." w.

(** ** The specification's vocabulary *)

(** A field is absent when the document binds it to [None]. *)
Definition absent (doc : dict) (field : string) : Prop := doc !! field = Some VNone.

Section Vocabulary.
Context {B : Builtins}.

(** An optional text cell: the empty string becomes absent. *)
Definition optional_text (c : string) (v : value) : Prop :=
  (c = "" ∧ v = VNone) ∨ (c ≠ "" ∧ v = VStr c).

(** A numeric cell: absent when empty, the number read from it otherwise. *)
Definition parsed_float (c : string) (v : value) : Prop :=
  (c = "" ∧ v = VNone) ∨ (c ≠ "" ∧ ∃ x, float_of_str c = inr x ∧ v = VFloat x).

Definition parsed_int (c : string) (v : value) : Prop :=
  (c = "" ∧ v = VNone) ∨ (c ≠ "" ∧ ∃ n, int_of_str c = inr n ∧ v = VInt n).

(** A numeric cell that is not empty and that the conversion rejects. *)
Definition bad_float (c : string) : Prop :=
  c ≠ "" ∧ ∃ msg, float_of_str c = inl msg.

Definition bad_int (c : string) : Prop :=
  c ≠ "" ∧ ∃ msg, int_of_str c = inl msg.

(** The latitude, longitude and accuracy the Canada mapper leaves in the
    document for the three cells it reads in this order: the fields read
    before the first rejected cell keep their value, that field and the
    ones after it stay absent. *)
Definition ca_numeric_fields (lat lon acc : string) (vlat vlon vacc : value) : Prop :=
  (bad_float lat ∧ vlat = VNone ∧ vlon = VNone ∧ vacc = VNone)
  ∨ (parsed_float lat vlat ∧ bad_float lon ∧ vlon = VNone ∧ vacc = VNone)
  ∨ (parsed_float lat vlat ∧ parsed_float lon vlon ∧ bad_int acc ∧ vacc = VNone)
  ∨ (parsed_float lat vlat ∧ parsed_float lon vlon ∧ parsed_int acc vacc).

(** What one cell becomes, as a function. *)
Definition text_cell (c : string) : value := if truth c then VStr c else VNone.

Definition float_cell (c : string) : result value :=
  if truth c then
    match float_of_str c with
    | inr x => Return (VFloat x)
    | inl msg => Raise (ValueError msg)
    end
  else Return VNone.

Definition int_cell (c : string) : result value :=
  if truth c then
    match int_of_str c with
    | inr n => Return (VInt n)
    | inl msg => Raise (ValueError msg)
    end
  else Return VNone.

End Vocabulary.

(** ** What a file contributes, and the invariant of the row loop *)

Section Pipeline.
Context {B : Builtins}.
Variables (filepath collection_name : string).
Variable expected_columns_list : list Z.
Variable field_mapper_func : list string → py dict.

(** The record a row contributes: the one the mapper returns for a row of
    an expected length; none for a row of another length or one the mapper
    raises on. *)
Definition mapped_record (row : list string) : option dict :=
  if bool_decide (len row ∈ expected_columns_list) then
    match field_mapper_func row with
    | (_, Return doc) => Some doc
    | (_, Raise _) => None
    end
  else None.

(** The successfully mapped records of a file, in file order. *)
Definition mapped_records (rows : list (list string)) : list dict :=
  omap mapped_record rows.

(** Two states of the loop that differ in what was printed and by [k] in
    the number of rows skipped, and in nothing else. *)
Definition skipped_more (k : Z) (s s' : locals * world) : Prop :=
  documents s.1 = documents s'.1
  ∧ processed_count s.1 = processed_count s'.1
  ∧ skipped_count s.1 = skipped_count s'.1 + k
  ∧ collections s.2 = collections s'.2
  ∧ db_calls s.2 = db_calls s'.2.

(** The state of the loop once the rows [seen] have been read, in a run that
    started with the calls [calls0] made and [base] in the collection: the
    full batches written so far, followed by the buffer, are the records of
    [seen], and the buffer is not full. *)
Definition loop_inv (calls0 : list db_call) (base : list dict)
    (seen : list (list string)) (s : locals * world) : Prop :=
  ∃ batches : list (list dict),
    db_calls s.2 = calls0 ++ (InsertMany collection_name <$> batches)
    ∧ contents s.2 collection_name = base ++ concat batches
    ∧ Forall (λ b, len b = BATCH_SIZE) batches
    ∧ concat batches ++ documents s.1 = mapped_records seen
    ∧ len (documents s.1) < BATCH_SIZE
    ∧ processed_count s.1 = len (mapped_records seen)
    ∧ skipped_count s.1 = len seen - len (mapped_records seen).

End Pipeline.

(** ** Sample rows *)

Definition us_example : list string :=
  ["US"; "90210"; "Beverly Hills"; "California"; "CA"; "Los Angeles"; "037";
   ""; ""; "34.0901"; "-118.4065"; "4"].

Definition es_example : list string :=
  ["ES"; "04001"; "Almeria"; "Andalucia"; "AN"; "Almeria"; "AL";
   ""; "CommunityX"; "36.8381"; "-2.4597"; "4"].

(** Ten cells, the latitude cell unreadable. *)
Definition ca_example_abc : list string :=
  ["CA"; "T0A"; "Eastern Alberta"; "Alberta"; "AB"; "St. Paul"; "12";
   "abc"; "-110.729"; "6"].

(** Ten cells, the longitude cell unreadable. *)
Definition ca_example_partial : list string :=
  ["CA"; "T0A"; "Eastern Alberta"; "Alberta"; "AB"; "St. Paul"; "12";
   "54.766"; "abc"; "6"].

(** Eleven cells. *)
Definition ca_example_11 : list string :=
  ["CA"; "T0A"; "Eastern Alberta"; "Alberta"; "AB"; "St. Paul"; "12";
   "54.766"; "-110.729"; "6"; ""].

Definition empty_world : world := World [] ∅ [].

(** A US file of 10,001 rows. *)
Definition us_rows_10001 : list (list string) :=
  replicate (Z.to_nat 10001) us_example.

Definition us_file_10001 : files := {[ US_FILE := us_rows_10001 ]}.

(** A world in which an earlier run has loaded one Spanish record. *)
Definition loaded_world : world :=
  World []
    {[ "es_zip_codes" := [dict_display [("postal_code", VStr "04001")]] ]}
    [Drop "es_zip_codes";
     InsertMany "es_zip_codes" [dict_display [("postal_code", VStr "04001")]]].

(** ** The shape of the documents *)

Definition has (doc : dict) (field : string) (P : value → Prop) : Prop :=
  ∃ v, doc !! field = Some v ∧ P v.

Definition is_text (v : value) : Prop := ∃ s, v = VStr s.

(** [None] or a string that is not empty. *)
Definition is_text_or_none (v : value) : Prop :=
  v = VNone ∨ ∃ s, s ≠ "" ∧ v = VStr s.

Definition is_float_or_none (v : value) : Prop := v = VNone ∨ ∃ x, v = VFloat x.

Definition is_int_or_none (v : value) : Prop := v = VNone ∨ ∃ n, v = VInt n.

Definition twelve_fields : gset string :=
  {[ "country_code"; "postal_code"; "place_name";
     "admin1_name"; "admin1_code"; "admin2_name"; "admin2_code";
     "admin3_name"; "admin3_code"; "latitude"; "longitude"; "accuracy" ]}.

Definition ten_fields : gset string :=
  {[ "country_code"; "postal_code"; "place_name";
     "admin1_name"; "admin1_code"; "admin2_name"; "admin2_code";
     "latitude"; "longitude"; "accuracy" ]}.

Definition numeric_fields (doc : dict) : Prop :=
  has doc "latitude" is_float_or_none
  ∧ has doc "longitude" is_float_or_none
  ∧ has doc "accuracy" is_int_or_none.

Definition es_document (doc : dict) : Prop :=
  dom doc = twelve_fields
  ∧ has doc "country_code" is_text ∧ has doc "postal_code" is_text
  ∧ has doc "place_name" is_text
  ∧ has doc "admin1_name" is_text ∧ has doc "admin1_code" is_text
  ∧ has doc "admin2_name" is_text ∧ has doc "admin2_code" is_text
  ∧ has doc "admin3_name" is_text_or_none ∧ has doc "admin3_code" is_text_or_none
  ∧ numeric_fields doc.

Definition us_document (doc : dict) : Prop :=
  dom doc = ten_fields
  ∧ has doc "country_code" is_text ∧ has doc "postal_code" is_text
  ∧ has doc "place_name" is_text
  ∧ has doc "admin1_name" is_text ∧ has doc "admin1_code" is_text
  ∧ has doc "admin2_name" is_text ∧ has doc "admin2_code" is_text
  ∧ numeric_fields doc.

Definition ca_document (doc : dict) : Prop :=
  dom doc = twelve_fields
  ∧ has doc "country_code" is_text ∧ has doc "postal_code" is_text
  ∧ has doc "place_name" is_text
  ∧ has doc "admin1_name" is_text_or_none ∧ has doc "admin1_code" is_text_or_none
  ∧ has doc "admin2_name" is_text_or_none ∧ has doc "admin2_code" is_text_or_none
  ∧ has doc "admin3_name" is_text_or_none ∧ has doc "admin3_code" is_text_or_none
  ∧ numeric_fields doc.

(** ** Rows a mapper accepts, read off the cells *)

Section Accepts.
Context {B : Builtins}.

(** A numeric cell that is empty or that the conversion accepts. *)
Definition float_cell_ok (c : string) : bool :=
  negb (truth c) || (if float_of_str c is inr _ then true else false).

Definition int_cell_ok (c : string) : bool :=
  negb (truth c) || (if int_of_str c is inr _ then true else false).

(** Twelve cells, the three numeric ones acceptable. *)
Definition es_us_row_ok (row : list string) : bool :=
  bool_decide (len row = 12)
  && float_cell_ok (default "" (row !! 9%nat))
  && float_cell_ok (default "" (row !! 10%nat))
  && int_cell_ok (default "" (row !! 11%nat)).

End Accepts.

(** The collection a call is made on. *)
Definition call_collection (c : db_call) : string :=
  match c with
  | Drop name => name
  | InsertMany name _ => name
  end.

(** The part of a computation's result with the printing left out, mapped. *)
Definition py_map {A A' : Type} (f : A → A') (m : py A) : py A' :=
  a ← m; mret (f a).


(** The warning of the Canada mapper (lines 146 and 159). *)
Definition ca_warning `{!Builtins} (columns : string) (row : list string)
    (msg : string) : string :=
  "Warning: Could not parse lat/lon/acc for " +:+ columns
  +:+ "-column CA row: " +:+ str_row row +:+ " - Error: " +:+ msg.

(** A list cut into consecutive slices of [n] elements; the last slice
    holds what is left. *)
Definition slices {A : Type} (n : nat) (l : list A) : list (list A) :=
  (λ i, take n (skipn (i * n) l)) <$> seq 0 ((length l + n - 1) / n)%nat.

(** The calls one file gives rise to: none when it does not exist; a drop
    and the bulk writes of its records, 10,000 at a time, when it does. *)
Definition file_calls (fs : files) (filepath collection_name : string)
    (records : list (list string) → list dict) : list db_call :=
  match fs !! filepath with
  | None => []
  | Some rows =>
      Drop collection_name
        :: (InsertMany collection_name <$> slices (Z.to_nat BATCH_SIZE) (records rows))
  end.

(** The documents a collection holds after its file has been processed. *)
Definition file_contents (fs : files) (filepath : string)
    (records : list (list string) → list dict) (before : list dict) : list dict :=
  match fs !! filepath with
  | None => before
  | Some rows => records rows
  end.

(** * Properties *)

(** ** Cells and conditional expressions *)

Section CellLemmas.
Context {B : Builtins}.

Lemma truth_false (c : string) : truth c = false ↔ c = "".
Proof. destruct c; simpl; split; congruence. Qed.

Lemma truth_true (c : string) : truth c = true ↔ c ≠ "".
Proof. destruct c; simpl; split; congruence. Qed.

Lemma text_cell_optional (c : string) : optional_text c (text_cell c).
Proof.
  unfold optional_text, text_cell.
  destruct (truth c) eqn:E; [right | left].
  - by apply truth_true in E.
  - by apply truth_false in E.
Qed.

Lemma float_cell_return (c : string) (v : value) :
  float_cell c = Return v ↔ parsed_float c v.
Proof.
  unfold float_cell, parsed_float. destruct (truth c) eqn:E.
  - apply truth_true in E. destruct (float_of_str c) as [msg|x]; split.
    + discriminate.
    + intros [[? _]|(_ & y & ? & _)]; congruence.
    + intros [= <-]. right. eauto.
    + intros [[? _]|(_ & y & ? & ->)]; congruence.
  - apply truth_false in E. split.
    + intros [= <-]. by left.
    + intros [[_ ->]|[? _]]; congruence.
Qed.

Lemma int_cell_return (c : string) (v : value) :
  int_cell c = Return v ↔ parsed_int c v.
Proof.
  unfold int_cell, parsed_int. destruct (truth c) eqn:E.
  - apply truth_true in E. destruct (int_of_str c) as [msg|x]; split.
    + discriminate.
    + intros [[? _]|(_ & y & ? & _)]; congruence.
    + intros [= <-]. right. eauto.
    + intros [[? _]|(_ & y & ? & ->)]; congruence.
  - apply truth_false in E. split.
    + intros [= <-]. by left.
    + intros [[_ ->]|[? _]]; congruence.
Qed.

Lemma float_cell_raise (c : string) (e : exn) :
  float_cell c = Raise e → bad_float c ∧ ∃ msg, e = ValueError msg.
Proof.
  unfold float_cell, bad_float. destruct (truth c) eqn:E; [|discriminate].
  apply truth_true in E. destruct (float_of_str c) as [msg|x]; [|discriminate].
  intros [= <-]. eauto.
Qed.

Lemma int_cell_raise (c : string) (e : exn) :
  int_cell c = Raise e → bad_int c ∧ ∃ msg, e = ValueError msg.
Proof.
  unfold int_cell, bad_int. destruct (truth c) eqn:E; [|discriminate].
  apply truth_true in E. destruct (int_of_str c) as [msg|x]; [|discriminate].
  intros [= <-]. eauto.
Qed.

Lemma bad_float_raise (c : string) :
  bad_float c → ∃ msg, float_cell c = Raise (ValueError msg).
Proof.
  intros [Hc [msg Hm]]. exists msg. unfold float_cell.
  apply truth_true in Hc. by rewrite Hc, Hm.
Qed.

Lemma bad_int_raise (c : string) :
  bad_int c → ∃ msg, int_cell c = Raise (ValueError msg).
Proof.
  intros [Hc [msg Hm]]. exists msg. unfold int_cell.
  apply truth_true in Hc. by rewrite Hc, Hm.
Qed.

(** The conditional expressions of the mappers on a cell that exists. *)
Lemma str_or_none_cell (row : list string) (i : nat) (c : string) :
  row !! i = Some c → str_or_none row i = mret (text_cell c).
Proof.
  intros Hc. unfold str_or_none, text_cell, getitem. rewrite Hc. cbn.
  by destruct (truth c).
Qed.

Lemma float_or_none_cell (row : list string) (i : nat) (c : string) :
  row !! i = Some c → float_or_none row i = ([], float_cell c).
Proof.
  intros Hc. unfold float_or_none, float_cell, getitem, py_float. rewrite Hc. cbn.
  destruct (truth c); [|done]. cbn. by destruct (float_of_str c).
Qed.

Lemma int_or_none_cell (row : list string) (i : nat) (c : string) :
  row !! i = Some c → int_or_none row i = ([], int_cell c).
Proof.
  intros Hc. unfold int_or_none, int_cell, getitem, py_int. rewrite Hc. cbn.
  destruct (truth c); [|done]. cbn. by destruct (int_of_str c).
Qed.

(** The Spain and US mappers on twelve cells: the three numeric cells are
    converted in order, and the first one rejected is the exception raised. *)
Lemma map_es_fields_cells (c0 c1 c2 c3 c4 c5 c6 c7 c8 c9 c10 c11 : string) :
  map_es_fields [c0; c1; c2; c3; c4; c5; c6; c7; c8; c9; c10; c11] =
  ([], match float_cell c9, float_cell c10, int_cell c11 with
       | Return lat, Return lon, Return acc =>
           Return (dict_display [
             ("country_code", VStr c0); ("postal_code", VStr c1);
             ("place_name", VStr c2);
             ("admin1_name", VStr c3); ("admin1_code", VStr c4);
             ("admin2_name", VStr c5); ("admin2_code", VStr c6);
             ("admin3_name", text_cell c7); ("admin3_code", text_cell c8);
             ("latitude", lat); ("longitude", lon); ("accuracy", acc) ])
       | Raise e, _, _ => Raise e
       | _, Raise e, _ => Raise e
       | _, _, Raise e => Raise e
       end).
Proof.
  unfold map_es_fields.
  rewrite (str_or_none_cell _ 7 c7), (str_or_none_cell _ 8 c8),
    (float_or_none_cell _ 9 c9), (float_or_none_cell _ 10 c10),
    (int_or_none_cell _ 11 c11) by done.
  cbn. by destruct (float_cell c9), (float_cell c10), (int_cell c11).
Qed.

Lemma map_us_fields_cells (c0 c1 c2 c3 c4 c5 c6 c7 c8 c9 c10 c11 : string) :
  map_us_fields [c0; c1; c2; c3; c4; c5; c6; c7; c8; c9; c10; c11] =
  ([], match float_cell c9, float_cell c10, int_cell c11 with
       | Return lat, Return lon, Return acc =>
           Return (dict_display [
             ("country_code", VStr c0); ("postal_code", VStr c1);
             ("place_name", VStr c2);
             ("admin1_name", VStr c3); ("admin1_code", VStr c4);
             ("admin2_name", VStr c5); ("admin2_code", VStr c6);
             ("latitude", lat); ("longitude", lon); ("accuracy", acc) ])
       | Raise e, _, _ => Raise e
       | _, Raise e, _ => Raise e
       | _, _, Raise e => Raise e
       end).
Proof.
  unfold map_us_fields.
  rewrite (float_or_none_cell _ 9 c9), (float_or_none_cell _ 10 c10),
    (int_or_none_cell _ 11 c11) by done.
  cbn. by destruct (float_cell c9), (float_cell c10), (int_cell c11).
Qed.

End CellLemmas.

(** ** The Canada mapper *)

Section CanadaLemmas.
Context {B : Builtins}.

(** The [try] block on three cells that exist: it never raises, and the
    document it leaves holds the assignments made before the first rejected
    cell. *)
Lemma try_lat_lon_acc_cells (columns : string) (i j k : nat) (row : list string)
    (doc : dict) (lat lon acc : string) :
  row !! i = Some lat → row !! j = Some lon → row !! k = Some acc →
  ∃ out doc', try_lat_lon_acc columns i j k row doc = (out, Return doc') ∧
    ((bad_float lat ∧ doc' = doc)
     ∨ (∃ vlat, parsed_float lat vlat ∧ bad_float lon
          ∧ doc' = <["latitude" := vlat]> doc)
     ∨ (∃ vlat vlon, parsed_float lat vlat ∧ parsed_float lon vlon ∧ bad_int acc
          ∧ doc' = <["longitude" := vlon]> (<["latitude" := vlat]> doc))
     ∨ (∃ vlat vlon vacc,
          parsed_float lat vlat ∧ parsed_float lon vlon ∧ parsed_int acc vacc
          ∧ doc' = <["accuracy" := vacc]>
                     (<["longitude" := vlon]> (<["latitude" := vlat]> doc)))).
Proof.
  intros Hi Hj Hk. unfold try_lat_lon_acc. cbn.
  rewrite (float_or_none_cell _ _ _ Hi), (float_or_none_cell _ _ _ Hj),
    (int_or_none_cell _ _ _ Hk).
  destruct (float_cell lat) as [vlat|e1] eqn:E1.
  2:{ apply float_cell_raise in E1 as [? [msg ->]]. cbn. eauto 10. }
  apply float_cell_return in E1.
  destruct (float_cell lon) as [vlon|e2] eqn:E2.
  2:{ apply float_cell_raise in E2 as [? [msg ->]]. cbn. eauto 10. }
  apply float_cell_return in E2.
  destruct (int_cell acc) as [vacc|e3] eqn:E3.
  2:{ apply int_cell_raise in E3 as [? [msg ->]]. cbn. eauto 15. }
  apply int_cell_return in E3. cbn. eauto 15.
Qed.

Lemma map_ca_fields_flexible_10 (c0 c1 c2 c3 c4 c5 c6 c7 c8 c9 : string) :
  ∃ out vlat vlon vacc,
    map_ca_fields_flexible [c0; c1; c2; c3; c4; c5; c6; c7; c8; c9] =
      (out, Return (dict_display [
         ("country_code", VStr c0); ("postal_code", VStr c1);
         ("place_name", VStr c2);
         ("admin1_name", text_cell c3); ("admin1_code", text_cell c4);
         ("admin2_name", text_cell c5); ("admin2_code", text_cell c6);
         ("admin3_name", VNone); ("admin3_code", VNone);
         ("latitude", vlat); ("longitude", vlon); ("accuracy", vacc) ]))
    ∧ ca_numeric_fields c7 c8 c9 vlat vlon vacc.
Proof.
  unfold map_ca_fields_flexible, str_in_range_or_none.
  change (len _ >? Z.of_nat 3) with true. change (len _ >? Z.of_nat 4) with true.
  change (len _ =? 10) with true. cbv iota.
  rewrite (str_or_none_cell _ 3 c3), (str_or_none_cell _ 4 c4),
    (str_or_none_cell _ 5 c5), (str_or_none_cell _ 6 c6) by done.
  cbn [getitem lookup list_lookup mbind py_bind mret py_ret app].
  match goal with |- context [try_lat_lon_acc ?t 7 8 9 ?r ?d] =>
    destruct (try_lat_lon_acc_cells t 7 8 9 r d c7 c8 c9)
      as (out & doc' & -> & Hdoc); [done..|]
  end.
  exists out.
  destruct Hdoc as [[? ->]|[(vlat & ? & ? & ->)|[(vlat & vlon & ? & ? & ? & ->)
    |(vlat & vlon & vacc & ? & ? & ? & ->)]]].
  - exists VNone, VNone, VNone. split; [reflexivity|]. by left.
  - exists vlat, VNone, VNone. split; [reflexivity|]. right; left. done.
  - exists vlat, vlon, VNone. split; [reflexivity|]. right; right; left. done.
  - exists vlat, vlon, vacc. split; [reflexivity|]. right; right; right. done.
Qed.
Lemma map_ca_fields_flexible_12 (c0 c1 c2 c3 c4 c5 c6 c7 c8 c9 c10 c11 : string) :
  ∃ out vlat vlon vacc,
    map_ca_fields_flexible [c0; c1; c2; c3; c4; c5; c6; c7; c8; c9; c10; c11] =
      (out, Return (dict_display [
         ("country_code", VStr c0); ("postal_code", VStr c1);
         ("place_name", VStr c2);
         ("admin1_name", text_cell c3); ("admin1_code", text_cell c4);
         ("admin2_name", text_cell c5); ("admin2_code", text_cell c6);
         ("admin3_name", text_cell c7); ("admin3_code", text_cell c8);
         ("latitude", vlat); ("longitude", vlon); ("accuracy", vacc) ]))
    ∧ ca_numeric_fields c9 c10 c11 vlat vlon vacc.
Proof.
  unfold map_ca_fields_flexible, str_in_range_or_none.
  change (len _ >? Z.of_nat 3) with true. change (len _ >? Z.of_nat 4) with true.
  change (len _ =? 10) with false. change (len _ =? 12) with true. cbv iota.
  rewrite (str_or_none_cell _ 3 c3), (str_or_none_cell _ 4 c4),
    (str_or_none_cell _ 5 c5), (str_or_none_cell _ 6 c6),
    (str_or_none_cell _ 7 c7), (str_or_none_cell _ 8 c8) by done.
  cbn [getitem lookup list_lookup mbind py_bind mret py_ret app].
  match goal with |- context [try_lat_lon_acc ?t 9 10 11 ?r ?d] =>
    destruct (try_lat_lon_acc_cells t 9 10 11 r d c9 c10 c11)
      as (out & doc' & -> & Hdoc); [done..|]
  end.
  exists out.
  destruct Hdoc as [[? ->]|[(vlat & ? & ? & ->)|[(vlat & vlon & ? & ? & ? & ->)
    |(vlat & vlon & vacc & ? & ? & ? & ->)]]].
  - exists VNone, VNone, VNone. split; [reflexivity|]. by left.
  - exists vlat, VNone, VNone. split; [reflexivity|]. right; left. done.
  - exists vlat, vlon, VNone. split; [reflexivity|]. right; right; left. done.
  - exists vlat, vlon, vacc. split; [reflexivity|]. right; right; right. done.
Qed.

(** Rows too short for the three cells every Canada record starts with. *)
Lemma map_ca_fields_flexible_lt_3 (row : list string) :
  (length row < 3)%nat →
  map_ca_fields_flexible row = raise (IndexError "list index out of range").
Proof.
  intros Hlen. destruct row as [|c0 [|c1 [|c2 row]]]; [done..|simpl in Hlen; lia].
Qed.

(** Rows with the three cells and an unexpected length. *)
Lemma map_ca_fields_flexible_other (row : list string) :
  (3 ≤ length row)%nat → length row ≠ 10%nat → length row ≠ 12%nat →
  map_ca_fields_flexible row =
    raise (ValueError ("Unexpected number of columns (" +:+ pretty (len row)
                       +:+ ") for CA data mapper. Row: " +:+ str_row row)).
Proof.
  intros H3 H10 H12. unfold map_ca_fields_flexible.
  destruct row as [|c0 [|c1 [|c2 row]]]; [simpl in H3; lia..|].
  set (r := c0 :: c1 :: c2 :: row) in *.
  assert ((len r =? 10) = false) as -> by (apply Z.eqb_neq; unfold len; lia).
  assert ((len r =? 12) = false) as -> by (apply Z.eqb_neq; unfold len; lia).
  assert (∀ i, ∃ v, str_in_range_or_none r i = mret v) as Hcell.
  { intros i. unfold str_in_range_or_none.
    destruct (Z.gtb_spec (len r) (Z.of_nat i)); [|eauto].
    destruct (r !! i) as [c|] eqn:Hc.
    - rewrite (str_or_none_cell _ _ _ Hc). eauto.
    - apply lookup_ge_None in Hc. unfold len in *. lia. }
  destruct (Hcell 3%nat) as [v3 ->], (Hcell 4%nat) as [v4 ->].
  reflexivity.
Qed.

End CanadaLemmas.

(** ** The row loop *)

Section PipelineLemmas.
Context {B : Builtins}.
Variables (filepath collection_name : string).
Variable expected : list Z.
Variable mapper : list string → py dict.

#[local] Abbreviation classify := (classify_row filepath expected mapper).
#[local] Abbreviation flush := (flush_full_batch collection_name).
#[local] Abbreviation loop := (for_rows filepath collection_name expected mapper).
#[local] Abbreviation record_of := (mapped_record expected mapper).
#[local] Abbreviation records_of := (mapped_records expected mapper).
#[local] Abbreviation inv := (loop_inv collection_name expected mapper).

Lemma len_app {A : Type} (l1 l2 : list A) : len (l1 ++ l2) = len l1 + len l2.
Proof. unfold len. rewrite length_app. lia. Qed.

Lemma len_nonneg {A : Type} (l : list A) : 0 ≤ len l.
Proof. unfold len. lia. Qed.

Lemma nonempty_len {A : Type} (l : list A) : nonempty l = true ↔ 0 < len l.
Proof. destruct l; unfold len; simpl; split; (lia || congruence). Qed.

Lemma len_concat_full (batches : list (list dict)) :
  Forall (λ b, len b = BATCH_SIZE) batches →
  len (concat batches) = BATCH_SIZE * len batches.
Proof.
  induction 1 as [|b bs Hb _ IH]; [done|].
  simpl. rewrite len_app, IH, Hb. unfold len. simpl length. lia.
Qed.

(** A row that contributes a record: the record is appended to the buffer
    and counted as processed; the database is not touched. *)
Lemma classify_row_mapped (i : Z) (row : list string) (doc : dict)
    (l : locals) (w : world) :
  record_of row = Some doc →
  ∃ w', classify i row (l, w) =
          (Locals (documents l ++ [doc]) (processed_count l + 1) (skipped_count l), w')
        ∧ collections w' = collections w ∧ db_calls w' = db_calls w.
Proof.
  unfold mapped_record, classify_row. case_bool_decide; [|done].
  destruct (mapper row) as [out [d|e]]; [|done]. intros [= <-]. eauto.
Qed.

(** A row that contributes none is counted as skipped, and nothing else
    changes but what is printed. *)
Lemma classify_row_skipped (i : Z) (row : list string) (l : locals) (w : world) :
  record_of row = None →
  ∃ w', classify i row (l, w) =
          (Locals (documents l) (processed_count l) (skipped_count l + 1), w')
        ∧ collections w' = collections w ∧ db_calls w' = db_calls w.
Proof.
  unfold mapped_record, classify_row. case_bool_decide.
  - destruct (mapper row) as [out [d|[msg|msg]]]; [done|..]; intros _; eauto.
  - intros _. destruct (_ && _); eauto.
Qed.

Lemma flush_not_full (l : locals) (w : world) :
  len (documents l) < BATCH_SIZE → flush (l, w) = (l, w).
Proof.
  intros Hlt. unfold flush_full_batch.
  destruct (Z.geb_spec (len (documents l)) BATCH_SIZE); [lia|done].
Qed.

Lemma flush_full (l : locals) (w : world) :
  len (documents l) = BATCH_SIZE →
  flush (l, w) = (Locals [] (processed_count l) (skipped_count l),
                  insert_many collection_name (documents l) w).
Proof.
  intros Heq. unfold flush_full_batch.
  destruct (Z.geb_spec (len (documents l)) BATCH_SIZE); [|lia].
  destruct (nonempty (documents l)) eqn:E; [done|].
  destruct (documents l); [|done]. unfold len, BATCH_SIZE in Heq. simpl in Heq. lia.
Qed.

Lemma records_of_snoc (seen : list (list string)) (row : list string) :
  records_of (seen ++ [row]) = records_of seen ++ from_option (λ d, [d]) [] (record_of row).
Proof.
  unfold mapped_records. rewrite omap_app. simpl. by destruct (record_of row).
Qed.

(** One turn of the loop keeps the invariant. *)
Lemma loop_inv_step (calls0 : list db_call) (base : list dict)
    (seen : list (list string)) (i : Z) (row : list string) (s : locals * world) :
  inv calls0 base seen s → inv calls0 base (seen ++ [row]) (flush (classify i row s)).
Proof.
  destruct s as [l w]. intros (batches & Hcalls & Hcoll & Hfull & Hcat & Hlt & Hp & Hs).
  simpl in Hcalls, Hcoll, Hcat, Hlt, Hp, Hs.
  unfold loop_inv, contents in *. rewrite records_of_snoc, !len_app.
  destruct (record_of row) as [doc|] eqn:Hrow.
  - destruct (classify_row_mapped i row doc l w Hrow) as (w' & -> & Hc' & Hd').
    destruct (decide (len (documents l ++ [doc]) = BATCH_SIZE)) as [Hfill|Hnot].
    + rewrite flush_full by done. exists (batches ++ [documents l ++ [doc]]).
      simpl. unfold contents.
      rewrite Hd', Hc', Hcalls, fmap_app, concat_app, lookup_insert_eq.
      change (len [doc]) with 1. change (len [row]) with 1.
      split_and!.
      * by rewrite <- app_assoc.
      * simpl. by rewrite Hcoll, app_nil_r, <- !app_assoc.
      * apply Forall_app. split; [done|]. by constructor.
      * simpl. by rewrite !app_nil_r, <- Hcat, <- app_assoc.
      * done.
      * lia.
      * lia.
    + rewrite len_app in Hnot. change (len [doc]) with 1 in Hnot.
      rewrite flush_not_full
        by (simpl; rewrite len_app; change (len [doc]) with 1; lia).
      exists batches. simpl. rewrite Hd', Hc'.
      change (len [doc]) with 1. change (len [row]) with 1.
      split_and!; try done.
      * by rewrite app_assoc, Hcat.
      * rewrite len_app. change (len [doc]) with 1. lia.
      * lia.
      * lia.
  - destruct (classify_row_skipped i row l w Hrow) as (w' & -> & Hc' & Hd').
    rewrite flush_not_full by done.
    exists batches. simpl. rewrite Hd', Hc', app_nil_r.
    change (len [row]) with 1. change (len []) with 0.
    split_and!; try done; lia.
Qed.

Lemma loop_inv_for_rows (calls0 : list db_call) (base : list dict)
    (rows seen : list (list string)) (i : Z) (s : locals * world) :
  inv calls0 base seen s → inv calls0 base (seen ++ rows) (loop i rows s).
Proof.
  revert seen i s. induction rows as [|row rows IH]; intros seen i s Hinv.
  - by rewrite app_nil_r.
  - simpl. rewrite cons_middle, app_assoc.
    apply IH. by apply loop_inv_step.
Qed.

Lemma loop_inv_start (w : world) :
  inv (db_calls w) (contents w collection_name) [] (Locals [] 0 0, w).
Proof.
  exists []. simpl. rewrite !app_nil_r. by split_and!.
Qed.

Lemma for_rows_app (i : Z) (rows1 rows2 : list (list string)) (s : locals * world) :
  loop i (rows1 ++ rows2) s = loop (i + len rows1) rows2 (loop i rows1 s).
Proof.
  revert i s. induction rows1 as [|row rows1 IH]; intros i s; simpl.
  - f_equal. unfold len. simpl. lia.
  - rewrite IH. f_equal. unfold len. simpl length. lia.
Qed.

(** What the loop does to the buffer, the counters and the database does
    not depend on the index of the row nor on what was printed before. *)
Lemma skipped_more_step (k i j : Z) (row : list string) (s s' : locals * world) :
  skipped_more k s s' →
  skipped_more k (flush (classify i row s)) (flush (classify j row s')).
Proof.
  destruct s as [[docs p sk] w], s' as [[docs' p' sk'] w'].
  intros (Hd & Hp & Hs & Hc & Hcalls); simpl in *; subst docs' p' sk.
  unfold classify_row. case_bool_decide.
  - destruct (mapper row) as [out [d|[msg|msg]]]; unfold flush_full_batch; simpl;
      repeat case_match; simpl; unfold skipped_more; simpl; unfold contents; simpl;
      rewrite ?Hc, ?Hcalls; split_and!; try done; lia.
  - unfold flush_full_batch; simpl;
      repeat case_match; simpl; unfold skipped_more; simpl; unfold contents; simpl;
      rewrite ?Hc, ?Hcalls; split_and!; try done; lia.
Qed.

Lemma skipped_more_for_rows (k i j : Z) (rows : list (list string))
    (s s' : locals * world) :
  skipped_more k s s' → skipped_more k (loop i rows s) (loop j rows s').
Proof.
  revert i j s s'. induction rows as [|row rows IH]; intros i j s s' Hrel; [done|].
  simpl. apply IH. by apply skipped_more_step.
Qed.

End PipelineLemmas.

Section LoadLemmas.
Context {B : Builtins}.
Variables (filepath collection_name : string).
Variable expected : list Z.
Variable mapper : list string → py dict.

#[local] Abbreviation load := (load_rows filepath collection_name expected mapper).
#[local] Abbreviation loop' := (for_rows filepath collection_name expected mapper).
#[local] Abbreviation records_of' := (mapped_records expected mapper).

(** The batches written for a file: every one but the last is full, the
    last one is not empty, and together they are the records of the file. *)
Lemma load_rows_batches (rows : list (list string)) (w : world) :
  ∃ batches : list (list dict),
    db_calls (load rows w).2 = db_calls w ++ (InsertMany collection_name <$> batches)
    ∧ contents (load rows w).2 collection_name
      = contents w collection_name ++ records_of' rows
    ∧ concat batches = records_of' rows
    ∧ (∀ (i : nat) (b : list dict), batches !! i = Some b →
         0 < len b ≤ BATCH_SIZE
         ∧ ((S i < length batches)%nat → len b = BATCH_SIZE))
    ∧ (len (records_of' rows) = BATCH_SIZE + 1 →
       ∃ b1 b2, batches = [b1; b2] ∧ len b1 = BATCH_SIZE ∧ len b2 = 1)
    ∧ processed_count (load rows w).1 = len (records_of' rows)
    ∧ skipped_count (load rows w).1 = len rows - len (records_of' rows).
Proof.
  pose proof (loop_inv_for_rows filepath collection_name expected mapper
                _ _ rows [] 0 _ (loop_inv_start collection_name expected mapper w))
    as Hinv.
  unfold load_rows. rewrite app_nil_l in Hinv.
  destruct (loop' 0 rows (Locals [] 0 0, w)) as [l w'].
  destruct Hinv as (batches & Hcalls & Hcoll & Hfull & Hcat & Hlt & Hp & Hs).
  simpl in Hcalls, Hcoll, Hcat, Hlt, Hp, Hs. unfold contents in *.
  pose proof (len_concat_full _ Hfull) as Hlen.
  pose proof (len_nonneg (documents l)) as Hpos.
  assert (∀ (i : nat) b, batches !! i = Some b → len b = BATCH_SIZE) as Hall.
  { intros i b Hb. by eapply (Forall_lookup_1 _ _ _ _ Hfull). }
  destruct (nonempty (documents l)) eqn:Hne.
  - apply nonempty_len in Hne.
    exists (batches ++ [documents l]). simpl. unfold contents.
    rewrite lookup_insert_eq, concat_app. simpl. rewrite app_nil_r.
    split_and!; try done.
    + by rewrite Hcalls, fmap_app, <- app_assoc.
    + by rewrite Hcoll, <- app_assoc, Hcat.
    + intros i b Hb. rewrite length_app. simpl.
      apply lookup_app_Some in Hb as [Hb|[Hge Hb]].
      * rewrite (Hall i b Hb). unfold BATCH_SIZE. lia.
      * apply list_lookup_singleton_Some in Hb as [Hi <-].
        split; [lia|]. lia.
    + intros H1. rewrite <- Hcat, len_app, Hlen in H1.
      assert (len batches = 1) as Hk
        by (unfold BATCH_SIZE in *; pose proof (len_nonneg batches); lia).
      destruct batches as [|b1 [|b2 bs]]; try (unfold len in Hk; simpl in Hk; lia).
      exists b1, (documents l). split; [done|].
      split; [by apply (Hall 0%nat)|].
      unfold BATCH_SIZE in *. change (len [b1]) with 1 in H1. lia.
  - assert (documents l = []) as Hnil by (by destruct (documents l)).
    rewrite Hnil, app_nil_r in Hcat.
    exists batches. simpl. rewrite Hcat. split_and!; try done.
    + by rewrite Hcoll, Hcat.
    + intros i b Hb. rewrite (Hall i b Hb). unfold BATCH_SIZE. lia.
    + intros H1. rewrite <- Hcat, Hlen in H1.
      unfold BATCH_SIZE in *. pose proof (len_nonneg batches). lia.
Qed.


(** The calls [process_file] makes for a file that exists. *)
Lemma process_file_batches (fs : files) (w : world) (rows : list (list string)) :
  fs !! filepath = Some rows →
  ∃ batches : list (list dict),
    db_calls (process_file filepath collection_name expected mapper fs w)
    = db_calls w ++ Drop collection_name :: (InsertMany collection_name <$> batches)
    ∧ concat batches = records_of' rows
    ∧ (∀ (i : nat) (b : list dict), batches !! i = Some b →
         0 < len b ≤ BATCH_SIZE
         ∧ ((S i < length batches)%nat → len b = BATCH_SIZE))
    ∧ contents (process_file filepath collection_name expected mapper fs w)
        collection_name = records_of' rows
    ∧ (len (records_of' rows) = BATCH_SIZE + 1 →
       ∃ b1 b2, batches = [b1; b2] ∧ len b1 = BATCH_SIZE ∧ len b2 = 1).
Proof.
  intros Hfile. unfold process_file. rewrite Hfile.
  match goal with |- context [load rows ?w1] =>
    destruct (load_rows_batches rows w1)
      as (batches & Hcalls & Hcoll & Hcat & Hsizes & Htwo & _);
    destruct (load rows w1) as [l w1']
  end.
  unfold contents in *. simpl in Hcalls, Hcoll.
  rewrite lookup_delete_eq in Hcoll. simpl in Hcoll.
  exists batches. split_and!; try done.
  - destruct (skipped_count l >? 0); simpl; by rewrite Hcalls, <- app_assoc.
  - destruct (skipped_count l >? 0); simpl; by rewrite Hcoll.
Qed.

(** Writing one collection leaves the others as they are. *)
Lemma for_rows_frame (other : string) (rows : list (list string)) (i : Z)
    (s : locals * world) :
  other ≠ collection_name →
  collections (loop' i rows s).2 !! other = collections s.2 !! other.
Proof.
  intros Hne. revert i s. induction rows as [|row rows IH]; intros i [l w]; [done|].
  cbn [for_rows]. rewrite IH. clear IH.
  destruct (mapped_record expected mapper row) as [doc|] eqn:Hrow.
  - destruct (classify_row_mapped filepath expected mapper i row doc l w Hrow)
      as (w' & -> & Hc & _).
    unfold flush_full_batch. repeat case_match; simpl; rewrite ?lookup_insert_ne by done;
      by rewrite Hc.
  - destruct (classify_row_skipped filepath expected mapper i row l w Hrow)
      as (w' & -> & Hc & _).
    unfold flush_full_batch. repeat case_match; simpl; rewrite ?lookup_insert_ne by done;
      by rewrite Hc.
Qed.

Lemma process_file_frame (other : string) (fs : files) (w : world) :
  other ≠ collection_name →
  collections (process_file filepath collection_name expected mapper fs w) !! other
  = collections w !! other.
Proof.
  intros Hne. unfold process_file. destruct (fs !! filepath) as [rows|]; [|done].
  unfold load_rows.
  match goal with |- context [loop' 0 rows ?s] =>
    pose proof (for_rows_frame other rows 0 s Hne) as Hloop;
    destruct (loop' 0 rows s) as [l w']
  end.
  simpl in Hloop. rewrite lookup_delete_ne in Hloop by done.
  destruct (nonempty (documents l)); destruct (skipped_count l >? 0); simpl;
    rewrite ?lookup_insert_ne by done; done.
Qed.

(** A row of a length that is not expected, anywhere in the file: the rest
    of the file is read as if the row were not there, and one more row is
    counted as skipped. *)
Lemma load_rows_skip (before after : list (list string)) (row : list string)
    (w : world) :
  len row ∉ expected →
  skipped_more 1 (load (before ++ row :: after) w) (load (before ++ after) w).
Proof.
  intros Hlen. unfold load_rows. rewrite !for_rows_app. cbn [for_rows].
  pose proof (loop_inv_for_rows filepath collection_name expected mapper
                _ _ before [] 0 _ (loop_inv_start collection_name expected mapper w))
    as Hinv.
  destruct (loop' 0 before (Locals [] 0 0, w)) as [l1 w1].
  destruct Hinv as (_ & _ & _ & _ & _ & Hlt & _). simpl in Hlt.
  assert (mapped_record expected mapper row = None) as Hrow.
  { unfold mapped_record. by rewrite bool_decide_eq_false_2. }
  destruct (classify_row_skipped filepath expected mapper (0 + len before) row l1 w1 Hrow)
    as (w1' & -> & Hc & Hd).
  rewrite flush_not_full by done.
  match goal with |- skipped_more 1 (let '(_, _) := loop' ?i after ?s in _)
                                    (let '(_, _) := loop' ?j after ?s' in _) =>
    pose proof (skipped_more_for_rows filepath collection_name expected mapper
                  1 i j after s s') as Hrel;
    destruct (loop' i after s) as [l2 w2], (loop' j after s') as [l2' w2']
  end.
  destruct Hrel as (Hdocs & Hp & Hs & Hcoll & Hcalls).
  { unfold skipped_more. simpl. by rewrite Hc, Hd. }
  simpl in Hdocs, Hp, Hs, Hcoll, Hcalls. rewrite Hdocs.
  destruct (nonempty (documents l2')); unfold skipped_more; simpl;
    unfold contents; by rewrite ?Hdocs, ?Hcoll, ?Hcalls.
Qed.

End LoadLemmas.

(** ** The Spain and US mappers *)

Ltac row_cells row Hlen :=
  repeat (destruct row as [|? row]; [simpl in Hlen; lia|]);
  destruct row; [|simpl in Hlen; lia]; clear Hlen.

Ltac no_bad_cell :=
  match goal with
  | H : bad_float _ |- _ => destruct H as [_ [? H]]; vm_compute in H; discriminate
  | H : bad_int _ |- _ => destruct H as [_ [? H]]; vm_compute in H; discriminate
  end.

Section MapperReturns.
Context {B : Builtins}.

(** On twelve cells the Spain and US mappers return a record unless one of
    the numeric cells is rejected, and then what they raise is that
    [ValueError]. *)
Lemma es_us_numeric_cells (c9 c10 c11 : string) :
  (∃ lat lon acc, float_cell c9 = Return lat ∧ float_cell c10 = Return lon
     ∧ int_cell c11 = Return acc
     ∧ ¬ (bad_float c9 ∨ bad_float c10 ∨ bad_int c11))
  ∨ (∃ msg, match float_cell c9, float_cell c10, int_cell c11 with
            | Return _, Return _, Return _ => False
            | Raise e, _, _ | _, Raise e, _ | _, _, Raise e => e = ValueError msg
            end
       ∧ (bad_float c9 ∨ bad_float c10 ∨ bad_int c11)).
Proof.
  destruct (float_cell c9) as [lat|e1] eqn:E1.
  2:{ right. apply float_cell_raise in E1 as [? [msg ->]]. eauto. }
  destruct (float_cell c10) as [lon|e2] eqn:E2.
  2:{ right. apply float_cell_raise in E2 as [? [msg ->]]. eauto. }
  destruct (int_cell c11) as [acc|e3] eqn:E3.
  2:{ right. apply int_cell_raise in E3 as [? [msg ->]]. eauto. }
  left. exists lat, lon, acc. split_and!; try done.
  intros [Hb|[Hb|Hb]].
  - apply bad_float_raise in Hb as [? ?]. congruence.
  - apply bad_float_raise in Hb as [? ?]. congruence.
  - apply bad_int_raise in Hb as [? ?]. congruence.
Qed.

Lemma map_es_fields_12 (c0 c1 c2 c3 c4 c5 c6 c7 c8 c9 c10 c11 : string) :
  let row := [c0; c1; c2; c3; c4; c5; c6; c7; c8; c9; c10; c11] in
  (¬ (bad_float c9 ∨ bad_float c10 ∨ bad_int c11)
   ∧ ∃ lat lon acc,
       parsed_float c9 lat ∧ parsed_float c10 lon ∧ parsed_int c11 acc
       ∧ map_es_fields row = mret (dict_display [
           ("country_code", VStr c0); ("postal_code", VStr c1);
           ("place_name", VStr c2);
           ("admin1_name", VStr c3); ("admin1_code", VStr c4);
           ("admin2_name", VStr c5); ("admin2_code", VStr c6);
           ("admin3_name", text_cell c7); ("admin3_code", text_cell c8);
           ("latitude", lat); ("longitude", lon); ("accuracy", acc) ]))
  ∨ ((bad_float c9 ∨ bad_float c10 ∨ bad_int c11)
     ∧ ∃ msg, map_es_fields row = raise (ValueError msg)).
Proof.
  intros row. unfold row. rewrite map_es_fields_cells.
  destruct (es_us_numeric_cells c9 c10 c11)
    as [(lat & lon & acc & E1 & E2 & E3 & Hok)|(msg & Hraise & Hbad)].
  - left. split; [done|]. exists lat, lon, acc. rewrite E1, E2, E3.
    apply float_cell_return in E1, E2. apply int_cell_return in E3. done.
  - right. split; [done|]. exists msg.
    destruct (float_cell c9), (float_cell c10), (int_cell c11);
      try done; by rewrite Hraise.
Qed.

Lemma map_us_fields_12 (c0 c1 c2 c3 c4 c5 c6 c7 c8 c9 c10 c11 : string) :
  let row := [c0; c1; c2; c3; c4; c5; c6; c7; c8; c9; c10; c11] in
  (¬ (bad_float c9 ∨ bad_float c10 ∨ bad_int c11)
   ∧ ∃ lat lon acc,
       parsed_float c9 lat ∧ parsed_float c10 lon ∧ parsed_int c11 acc
       ∧ map_us_fields row = mret (dict_display [
           ("country_code", VStr c0); ("postal_code", VStr c1);
           ("place_name", VStr c2);
           ("admin1_name", VStr c3); ("admin1_code", VStr c4);
           ("admin2_name", VStr c5); ("admin2_code", VStr c6);
           ("latitude", lat); ("longitude", lon); ("accuracy", acc) ]))
  ∨ ((bad_float c9 ∨ bad_float c10 ∨ bad_int c11)
     ∧ ∃ msg, map_us_fields row = raise (ValueError msg)).
Proof.
  intros row. unfold row. rewrite map_us_fields_cells.
  destruct (es_us_numeric_cells c9 c10 c11)
    as [(lat & lon & acc & E1 & E2 & E3 & Hok)|(msg & Hraise & Hbad)].
  - left. split; [done|]. exists lat, lon, acc. rewrite E1, E2, E3.
    apply float_cell_return in E1, E2. apply int_cell_return in E3. done.
  - right. split; [done|]. exists msg.
    destruct (float_cell c9), (float_cell c10), (int_cell c11);
      try done; by rewrite Hraise.
Qed.

End MapperReturns.

(** ** The claims about the field mappers *)

(** C7. For every 12-cell row, the record returned by the Spain mapper and
    the one returned by the US mapper bind [country_code], [postal_code] and
    [place_name] to cells 0, 1 and 2 as they are, the empty string included;
    a record is returned unless a numeric cell is rejected. *)
Theorem es_us_identity_cells_verbatim (B : Builtins)
    (c0 c1 c2 c3 c4 c5 c6 c7 c8 c9 c10 c11 : string) :
  let row := [c0; c1; c2; c3; c4; c5; c6; c7; c8; c9; c10; c11] in
  (∀ mapper, mapper = map_es_fields ∨ mapper = map_us_fields →
   ∀ out doc, mapper row = (out, Return doc) →
     doc !! "country_code" = Some (VStr c0)
     ∧ doc !! "postal_code" = Some (VStr c1)
     ∧ doc !! "place_name" = Some (VStr c2))
  ∧ (¬ (bad_float c9 ∨ bad_float c10 ∨ bad_int c11) →
     (∃ doc, map_es_fields row = mret doc) ∧ (∃ doc, map_us_fields row = mret doc)).
Proof.
  intros row. split.
  - intros mapper [-> | ->] out doc Hret.
    + destruct (map_es_fields_12 c0 c1 c2 c3 c4 c5 c6 c7 c8 c9 c10 c11)
        as [(_ & lat & lon & acc & _ & _ & _ & Hes)|(_ & msg & Hes)];
        fold row in Hes; rewrite Hes in Hret; [|done].
      injection Hret as _ <-. done.
    + destruct (map_us_fields_12 c0 c1 c2 c3 c4 c5 c6 c7 c8 c9 c10 c11)
        as [(_ & lat & lon & acc & _ & _ & _ & Hus)|(_ & msg & Hus)];
        fold row in Hus; rewrite Hus in Hret; [|done].
      injection Hret as _ <-. done.
  - intros Hok. split.
    + destruct (map_es_fields_12 c0 c1 c2 c3 c4 c5 c6 c7 c8 c9 c10 c11)
        as [(_ & lat & lon & acc & _ & _ & _ & Hes)|(Hbad & _)]; [eauto|done].
    + destruct (map_us_fields_12 c0 c1 c2 c3 c4 c5 c6 c7 c8 c9 c10 c11)
        as [(_ & lat & lon & acc & _ & _ & _ & Hus)|(Hbad & _)]; [eauto|done].
Qed.

Lemma es_us_identity_cells_verbatim_witness :
  ∃ doc, @map_us_fields cpython us_example = mret doc
    ∧ doc !! "country_code" = Some (VStr "US")
    ∧ doc !! "postal_code" = Some (VStr "90210")
    ∧ doc !! "place_name" = Some (VStr "Beverly Hills").
Proof.
  destruct (es_us_identity_cells_verbatim cpython
              "US" "90210" "Beverly Hills" "California" "CA" "Los Angeles" "037"
              "" "" "34.0901" "-118.4065" "4") as [Hfields Hret].
  destruct Hret as [_ [doc Hdoc]].
  { intros [Hb|[Hb|Hb]]; no_bad_cell. }
  exists doc. split; [exact Hdoc|].
  exact (Hfields map_us_fields (or_intror eq_refl) [] doc Hdoc).
Defined.

(** C10. For every 12-cell row, the record returned by the Spain mapper and
    the one returned by the US mapper bind [admin1_name], [admin1_code],
    [admin2_name] and [admin2_code] to cells 3 to 6 as they are: the four
    fields are never absent, and an empty cell is stored as the empty
    string. *)
Theorem es_us_admin_cells_verbatim (B : Builtins)
    (c0 c1 c2 c3 c4 c5 c6 c7 c8 c9 c10 c11 : string) :
  let row := [c0; c1; c2; c3; c4; c5; c6; c7; c8; c9; c10; c11] in
  (∀ mapper, mapper = map_es_fields ∨ mapper = map_us_fields →
   ∀ out doc, mapper row = (out, Return doc) →
     (doc !! "admin1_name" = Some (VStr c3)
      ∧ doc !! "admin1_code" = Some (VStr c4)
      ∧ doc !! "admin2_name" = Some (VStr c5)
      ∧ doc !! "admin2_code" = Some (VStr c6))
     ∧ (¬ absent doc "admin1_name" ∧ ¬ absent doc "admin1_code"
        ∧ ¬ absent doc "admin2_name" ∧ ¬ absent doc "admin2_code")
     ∧ (c3 = "" → doc !! "admin1_name" = Some (VStr ""))
     ∧ (c4 = "" → doc !! "admin1_code" = Some (VStr ""))
     ∧ (c5 = "" → doc !! "admin2_name" = Some (VStr ""))
     ∧ (c6 = "" → doc !! "admin2_code" = Some (VStr "")))
  ∧ (¬ (bad_float c9 ∨ bad_float c10 ∨ bad_int c11) →
     (∃ doc, map_es_fields row = mret doc) ∧ (∃ doc, map_us_fields row = mret doc)).
Proof.
  intros row.
  assert (∀ mapper, mapper = map_es_fields ∨ mapper = map_us_fields →
          ∀ out doc, mapper row = (out, Return doc) →
            doc !! "admin1_name" = Some (VStr c3)
            ∧ doc !! "admin1_code" = Some (VStr c4)
            ∧ doc !! "admin2_name" = Some (VStr c5)
            ∧ doc !! "admin2_code" = Some (VStr c6)) as Hfields.
  { intros mapper [-> | ->] out doc Hret.
    - destruct (map_es_fields_12 c0 c1 c2 c3 c4 c5 c6 c7 c8 c9 c10 c11)
        as [(_ & lat & lon & acc & _ & _ & _ & Hes)|(_ & msg & Hes)];
        fold row in Hes; rewrite Hes in Hret; [|done].
      injection Hret as _ <-. done.
    - destruct (map_us_fields_12 c0 c1 c2 c3 c4 c5 c6 c7 c8 c9 c10 c11)
        as [(_ & lat & lon & acc & _ & _ & _ & Hus)|(_ & msg & Hus)];
        fold row in Hus; rewrite Hus in Hret; [|done].
      injection Hret as _ <-. done. }
  split.
  - intros mapper Hm out doc Hret.
    destruct (Hfields mapper Hm out doc Hret) as (H3 & H4 & H5 & H6).
    unfold absent. rewrite H3, H4, H5, H6.
    split_and!; try done; by intros ->.
  - intros Hok. split.
    + destruct (map_es_fields_12 c0 c1 c2 c3 c4 c5 c6 c7 c8 c9 c10 c11)
        as [(_ & lat & lon & acc & _ & _ & _ & Hes)|(Hbad & _)]; [eauto|done].
    + destruct (map_us_fields_12 c0 c1 c2 c3 c4 c5 c6 c7 c8 c9 c10 c11)
        as [(_ & lat & lon & acc & _ & _ & _ & Hus)|(Hbad & _)]; [eauto|done].
Qed.

Lemma es_us_admin_cells_verbatim_witness :
  ∃ doc, @map_es_fields cpython
           ["ES"; "04001"; "Almeria"; ""; "AN"; "Almeria"; ""; ""; ""; ""; ""; ""]
         = mret doc
    ∧ doc !! "admin1_name" = Some (VStr "")
    ∧ doc !! "admin1_code" = Some (VStr "AN")
    ∧ doc !! "admin2_name" = Some (VStr "Almeria")
    ∧ doc !! "admin2_code" = Some (VStr "").
Proof.
  destruct (es_us_admin_cells_verbatim cpython
              "ES" "04001" "Almeria" "" "AN" "Almeria" "" "" "" "" "" "")
    as [Hfields Hret].
  destruct Hret as [[doc Hdoc] _].
  { intros [Hb|[Hb|Hb]]; destruct Hb as [Hne _]; by apply Hne. }
  exists doc. split; [exact Hdoc|].
  exact (proj1 (Hfields map_es_fields (or_introl eq_refl) [] doc Hdoc)).
Defined.

(** C5. For every 12-cell row, the record the Spain mapper returns binds the
    seven fields from [country_code] to [admin2_code] to cells 0 to 6 as they
    are; [admin3_name] and [admin3_code] to cells 7 and 8, absent when the
    cell is empty; [latitude] and [longitude] to the floats read from cells 9
    and 10 and [accuracy] to the integer read from cell 11, each absent when
    the cell is empty.  A record is returned unless a numeric cell is
    rejected.  In particular, with cell 7 empty and cell 8 ["CommunityX"],
    [admin3_name] is absent and [admin3_code] is ["CommunityX"]. *)
Theorem map_es_fields_layout (B : Builtins)
    (c0 c1 c2 c3 c4 c5 c6 c7 c8 c9 c10 c11 : string) :
  let row := [c0; c1; c2; c3; c4; c5; c6; c7; c8; c9; c10; c11] in
  (¬ (bad_float c9 ∨ bad_float c10 ∨ bad_int c11) →
   ∃ doc, map_es_fields row = mret doc)
  ∧ ∀ out doc, map_es_fields row = (out, Return doc) →
      doc !! "country_code" = Some (VStr c0)
      ∧ doc !! "postal_code" = Some (VStr c1)
      ∧ doc !! "place_name" = Some (VStr c2)
      ∧ doc !! "admin1_name" = Some (VStr c3)
      ∧ doc !! "admin1_code" = Some (VStr c4)
      ∧ doc !! "admin2_name" = Some (VStr c5)
      ∧ doc !! "admin2_code" = Some (VStr c6)
      ∧ (∃ v, doc !! "admin3_name" = Some v ∧ optional_text c7 v)
      ∧ (∃ v, doc !! "admin3_code" = Some v ∧ optional_text c8 v)
      ∧ (∃ v, doc !! "latitude" = Some v ∧ parsed_float c9 v)
      ∧ (∃ v, doc !! "longitude" = Some v ∧ parsed_float c10 v)
      ∧ (∃ v, doc !! "accuracy" = Some v ∧ parsed_int c11 v)
      ∧ (c7 = "" → c8 = "CommunityX" →
         absent doc "admin3_name"
         ∧ doc !! "admin3_code" = Some (VStr "CommunityX")).
Proof.
  intros row.
  destruct (map_es_fields_12 c0 c1 c2 c3 c4 c5 c6 c7 c8 c9 c10 c11)
    as [(Hok & lat & lon & acc & Hlat & Hlon & Hacc & Hes)|(Hbad & msg & Hes)];
    fold row in Hes; rewrite Hes.
  - split; [eauto|]. intros out doc [= _ <-].
    split_and!; try done.
    + exists (text_cell c7). split; [done|]. apply text_cell_optional.
    + exists (text_cell c8). split; [done|]. apply text_cell_optional.
    + by exists lat.
    + by exists lon.
    + by exists acc.
    + by intros -> ->.
  - split; [done|]. intros out doc [=].
Qed.

Lemma map_es_fields_layout_witness :
  ∃ doc, @map_es_fields cpython es_example = mret doc
    ∧ absent doc "admin3_name"
    ∧ doc !! "admin3_code" = Some (VStr "CommunityX").
Proof.
  destruct (map_es_fields_layout cpython
              "ES" "04001" "Almeria" "Andalucia" "AN" "Almeria" "AL"
              "" "CommunityX" "36.8381" "-2.4597" "4") as [Hret Hfields].
  destruct Hret as [doc Hdoc].
  { intros [Hb|[Hb|Hb]]; no_bad_cell. }
  exists doc. split; [exact Hdoc|].
  destruct (Hfields [] doc Hdoc) as (_ & _ & _ & _ & _ & _ & _ & _ & _ & _ & _ & _ & Hx).
  exact (Hx eq_refl eq_refl).
Defined.

(** C6. For every 12-cell row, the record the US mapper returns has no
    [admin3_name] and no [admin3_code] field: its fields are the other ten,
    and cells 7 and 8 are not read.  The row
    [US, 90210, Beverly Hills, California, CA, Los Angeles, 037, "", "",
    34.0901, -118.4065, 4] yields a record with [postal_code] ["90210"],
    [latitude] 34.0901, [longitude] -118.4065, [accuracy] 4 and no admin3
    field. *)
Theorem map_us_fields_no_admin3 :
  (∀ (B : Builtins) (c0 c1 c2 c3 c4 c5 c6 c7 c8 c9 c10 c11 : string)
       (out : list string) (doc : dict),
     map_us_fields [c0; c1; c2; c3; c4; c5; c6; c7; c8; c9; c10; c11]
       = (out, Return doc) →
     doc !! "admin3_name" = None ∧ doc !! "admin3_code" = None
     ∧ dom doc = {[ "country_code"; "postal_code"; "place_name";
                    "admin1_name"; "admin1_code"; "admin2_name"; "admin2_code";
                    "latitude"; "longitude"; "accuracy" ]}
     ∧ ∀ c7' c8', map_us_fields [c0; c1; c2; c3; c4; c5; c6; c7'; c8'; c9; c10; c11]
                  = (out, Return doc))
  ∧ ∃ doc,
      @map_us_fields cpython
        ["US"; "90210"; "Beverly Hills"; "California"; "CA"; "Los Angeles"; "037";
         ""; ""; "34.0901"; "-118.4065"; "4"] = mret doc
      ∧ doc !! "postal_code" = Some (VStr "90210")
      ∧ doc !! "latitude" = Some (VFloat 34.0901)
      ∧ doc !! "longitude" = Some (VFloat (-118.4065))
      ∧ doc !! "accuracy" = Some (VInt 4)
      ∧ doc !! "admin3_name" = None ∧ doc !! "admin3_code" = None.
Proof.
  split.
  - intros B c0 c1 c2 c3 c4 c5 c6 c7 c8 c9 c10 c11 out doc Hret.
    assert (∀ c7' c8', map_us_fields [c0; c1; c2; c3; c4; c5; c6; c7'; c8'; c9; c10; c11]
                       = (out, Return doc)) as Hany.
    { intros c7' c8'. rewrite map_us_fields_cells in Hret |- *. done. }
    destruct (map_us_fields_12 c0 c1 c2 c3 c4 c5 c6 c7 c8 c9 c10 c11)
      as [(_ & lat & lon & acc & _ & _ & _ & Hus)|(_ & msg & Hus)];
      cbv zeta in Hus; rewrite Hus in Hret; [|done].
    injection Hret as _ <-. split_and!; try done.
  - exists (dict_display [
      ("country_code", VStr "US"); ("postal_code", VStr "90210");
      ("place_name", VStr "Beverly Hills");
      ("admin1_name", VStr "California"); ("admin1_code", VStr "CA");
      ("admin2_name", VStr "Los Angeles"); ("admin2_code", VStr "037");
      ("latitude", VFloat 34.0901); ("longitude", VFloat (-118.4065));
      ("accuracy", VInt 4) ]).
    split; [|split_and!; reflexivity].
    rewrite map_us_fields_cells. unfold float_cell, int_cell. simpl truth. cbv iota.
    assert (@float_of_str cpython "34.0901" = inr 34.0901%float) as ->
      by (vm_compute; reflexivity).
    assert (@float_of_str cpython "-118.4065" = inr (-118.4065)%float) as ->
      by (vm_compute; reflexivity).
    assert (@int_of_str cpython "4" = inr 4) as -> by (vm_compute; reflexivity).
    reflexivity.
Qed.

Lemma map_us_fields_no_admin3_witness :
  ∃ doc, @map_us_fields cpython us_example = mret doc
    ∧ doc !! "admin3_name" = None ∧ doc !! "admin3_code" = None.
Proof.
  destruct map_us_fields_no_admin3 as [Hgen (doc & Hdoc & _)].
  exists doc. split; [exact Hdoc|].
  destruct (Hgen cpython _ _ _ _ _ _ _ _ _ _ _ _ [] doc Hdoc) as (H1 & H2 & _).
  exact (conj H1 H2).
Defined.



(** The 10-cell row [ca_example_partial]: its longitude cell is unreadable,
    and the record keeps the latitude read before it. *)
Lemma ca_longitude_failure_keeps_latitude :
  length ca_example_partial = 10%nat
  ∧ ca_example_partial !! 8%nat = Some "abc"
  ∧ @bad_float cpython "abc"
  ∧ ∃ out doc, @map_ca_fields_flexible cpython ca_example_partial = (out, Return doc)
      ∧ doc !! "latitude" = Some (VFloat 54.766)
      ∧ ¬ absent doc "latitude"
      ∧ absent doc "longitude" ∧ absent doc "accuracy".
Proof.
  split; [reflexivity|]. split; [reflexivity|].
  assert (@bad_float cpython "abc") as Hbad.
  { split; [done|]. eexists. vm_compute. reflexivity. }
  split; [exact Hbad|].
  destruct (@map_ca_fields_flexible_10 cpython "CA" "T0A" "Eastern Alberta" "Alberta"
              "AB" "St. Paul" "12" "54.766" "abc" "6")
    as (out & vlat & vlon & vacc & Hret & Hnum).
  exists out. eexists. split; [exact Hret|].
  assert (vlat = VFloat 54.766 ∧ vlon = VNone ∧ vacc = VNone) as (-> & -> & ->).
  { assert (∀ v, @parsed_float cpython "54.766" v → v = VFloat 54.766) as Hlat.
    { intros v [[[=] _]|(_ & x & Hx & ->)]. vm_compute in Hx. by injection Hx as <-. }
    assert (∀ v, ¬ @parsed_float cpython "abc" v) as Hlon.
    { intros v [[[=] _]|(_ & x & Hx & _)]. vm_compute in Hx. discriminate. }
    destruct Hnum as [(Hb & _)|[(Hp & _ & -> & ->)|[(_ & Hp & _)|(_ & Hp & _)]]].
    - no_bad_cell.
    - by rewrite (Hlat _ Hp).
    - by apply Hlon in Hp.
    - by apply Hlon in Hp. }
  unfold absent. split_and!; try reflexivity. discriminate.
Qed.

(** C1, where the code departs from the claim.  For every Canada row of 10
    cells and every one of 12 cells the mapper raises nothing and returns
    the record: [country_code], [postal_code] and [place_name] are cells 0
    to 2; the admin fields are their cells, absent when empty, and
    [admin3_name], [admin3_code] are absent in a 10-cell row; the caller
    appends that record to the batch and does not count the row as skipped.
    An unreadable latitude, longitude or accuracy cell is caught inside the
    mapper, and the field of that cell and the numeric fields read after it
    are absent.  So a 10-cell row whose cell 7 is ["abc"] gets all three
    absent, as the claim says.  But the numeric fields read before the
    unreadable cell keep their value: the assignments of lines 141-143 and
    154-156 are made one by one on the record.  The row
    [ca_example_partial], whose longitude cell is ["abc"], gets the record
    with [latitude] 54.766 and no longitude, and loses the accuracy its
    cell ["6"] gives; [process_file] writes that record to the collection. *)
Theorem map_ca_fields_flexible_numeric_failure_is_local :
  (∀ (B : Builtins) (c0 c1 c2 c3 c4 c5 c6 c7 c8 c9 : string),
     ∃ out vlat vlon vacc,
       map_ca_fields_flexible [c0; c1; c2; c3; c4; c5; c6; c7; c8; c9] =
         (out, Return (dict_display [
            ("country_code", VStr c0); ("postal_code", VStr c1);
            ("place_name", VStr c2);
            ("admin1_name", text_cell c3); ("admin1_code", text_cell c4);
            ("admin2_name", text_cell c5); ("admin2_code", text_cell c6);
            ("admin3_name", VNone); ("admin3_code", VNone);
            ("latitude", vlat); ("longitude", vlon); ("accuracy", vacc) ]))
       ∧ ca_numeric_fields c7 c8 c9 vlat vlon vacc)
  ∧ (∀ (B : Builtins) (c0 c1 c2 c3 c4 c5 c6 c7 c8 c9 c10 c11 : string),
     ∃ out vlat vlon vacc,
       map_ca_fields_flexible [c0; c1; c2; c3; c4; c5; c6; c7; c8; c9; c10; c11] =
         (out, Return (dict_display [
            ("country_code", VStr c0); ("postal_code", VStr c1);
            ("place_name", VStr c2);
            ("admin1_name", text_cell c3); ("admin1_code", text_cell c4);
            ("admin2_name", text_cell c5); ("admin2_code", text_cell c6);
            ("admin3_name", text_cell c7); ("admin3_code", text_cell c8);
            ("latitude", vlat); ("longitude", vlon); ("accuracy", vacc) ]))
       ∧ ca_numeric_fields c9 c10 c11 vlat vlon vacc)
  ∧ (∀ c0 c1 c2 c3 c4 c5 c6 c8 c9 : string,
     ∃ out,
       @map_ca_fields_flexible cpython [c0; c1; c2; c3; c4; c5; c6; "abc"; c8; c9] =
         (out, Return (dict_display [
            ("country_code", VStr c0); ("postal_code", VStr c1);
            ("place_name", VStr c2);
            ("admin1_name", text_cell c3); ("admin1_code", text_cell c4);
            ("admin2_name", text_cell c5); ("admin2_code", text_cell c6);
            ("admin3_name", VNone); ("admin3_code", VNone);
            ("latitude", VNone); ("longitude", VNone); ("accuracy", VNone) ])))
  ∧ (∀ (B : Builtins) (row : list string),
     length row = 10%nat ∨ length row = 12%nat →
     ∃ out doc,
       map_ca_fields_flexible row = (out, Return doc)
       ∧ ∀ (filepath : string) (i : Z) (l : locals) (w : world),
           classify_row filepath [10; 12] map_ca_fields_flexible i row (l, w)
           = (Locals (documents l ++ [doc]) (processed_count l + 1)
                (skipped_count l),
              echo_all out w))
  ∧ (∃ out doc,
       @map_ca_fields_flexible cpython ca_example_partial = (out, Return doc)
       ∧ doc !! "latitude" = Some (VFloat 54.766)
       ∧ absent doc "longitude" ∧ absent doc "accuracy"
       ∧ @int_cell cpython "6" = Return (VInt 6)
       ∧ ∀ w : world,
           contents (@process_file cpython CA_FILE "ca_zip_codes" [10; 12]
                       (@map_ca_fields_flexible cpython)
                       {[ CA_FILE := [ca_example_partial] ]} w) "ca_zip_codes"
           = [doc]).
Proof.
  split_and!.
  - intros B. apply map_ca_fields_flexible_10.
  - intros B. apply map_ca_fields_flexible_12.
  - intros c0 c1 c2 c3 c4 c5 c6 c8 c9.
    destruct (@map_ca_fields_flexible_10 cpython c0 c1 c2 c3 c4 c5 c6 "abc" c8 c9)
      as (out & vlat & vlon & vacc & Hret & Hnum).
    exists out. rewrite Hret.
    destruct Hnum as [(_ & -> & -> & ->)|[(Hp & _)|[(Hp & _)|(Hp & _)]]]; [done|..];
      destruct Hp as [[[=] _]|(_ & x & Hx & _)]; vm_compute in Hx; discriminate.
  - intros B row Hlen.
    assert (∃ out doc, map_ca_fields_flexible row = (out, Return doc)) as (out & doc & Hret).
    { destruct Hlen as [Hlen|Hlen]; row_cells row Hlen.
      - edestruct map_ca_fields_flexible_10 as (out & ? & ? & ? & Hret & _); eauto.
      - edestruct map_ca_fields_flexible_12 as (out & ? & ? & ? & Hret & _); eauto. }
    exists out, doc. split; [done|]. intros filepath i l w.
    unfold classify_row. rewrite bool_decide_eq_true_2, Hret; [done|].
    unfold len. destruct Hlen as [-> | ->]; set_solver.
  - destruct ca_longitude_failure_keeps_latitude
      as (_ & _ & _ & out & doc & Hret & Hlat & _ & Hlon & Hacc).
    exists out, doc.
    split; [exact Hret|]. split; [exact Hlat|].
    split; [exact Hlon|]. split; [exact Hacc|].
    split; [vm_compute; reflexivity|].
    intros w.
    destruct (@process_file_batches cpython CA_FILE "ca_zip_codes" [10; 12]
                (@map_ca_fields_flexible cpython)
                {[ CA_FILE := [ca_example_partial] ]} w [ca_example_partial]
                (lookup_singleton_eq _ _)) as (_ & _ & _ & _ & Hcontents & _).
    rewrite Hcontents.
    unfold mapped_records. cbn [omap list_omap]. unfold mapped_record.
    rewrite bool_decide_eq_true_2, Hret; [reflexivity|].
    apply elem_of_cons. left. reflexivity.
Qed.

Lemma map_ca_fields_flexible_numeric_failure_is_local_witness :
  ∃ out doc, @map_ca_fields_flexible cpython ca_example_abc = (out, Return doc)
    ∧ absent doc "latitude" ∧ absent doc "longitude" ∧ absent doc "accuracy"
    ∧ doc !! "admin1_name" = Some (VStr "Alberta")
    ∧ doc !! "admin1_code" = Some (VStr "AB")
    ∧ doc !! "admin2_name" = Some (VStr "St. Paul")
    ∧ doc !! "admin2_code" = Some (VStr "12").
Proof.
  destruct map_ca_fields_flexible_numeric_failure_is_local as (_ & _ & Habc & _).
  destruct (Habc "CA" "T0A" "Eastern Alberta" "Alberta" "AB" "St. Paul" "12"
              "-110.729" "6") as [out Hret].
  exists out. eexists. split; [exact Hret|]. split_and!; reflexivity.
Defined.

(** C2, as amended.  A row whose number of cells is neither 10 nor 12 makes
    the Canada mapper raise: with three cells or more, the [ValueError]
    whose message names the number of cells; with fewer than three, the
    [IndexError] of the first cell that is missing, since cells 0 to 2 are
    read before the number of cells is looked at.  Neither is met in a run:
    [process_file] passes the mapper rows of 10 or 12 cells only, and counts
    any other row as skipped without calling the mapper. *)
Theorem map_ca_fields_flexible_other_counts (B : Builtins) (row : list string) :
  length row ≠ 10%nat → length row ≠ 12%nat →
  ((3 ≤ length row)%nat →
   map_ca_fields_flexible row =
     raise (ValueError ("Unexpected number of columns (" +:+ pretty (len row)
                        +:+ ") for CA data mapper. Row: " +:+ str_row row)))
  ∧ ((length row < 3)%nat →
     map_ca_fields_flexible row = raise (IndexError "list index out of range"))
  ∧ ∀ (filepath : string) (i : Z) (l : locals) (w : world),
      ∃ line, ∀ mapper : list string → py dict,
        classify_row filepath [10; 12] mapper i row (l, w)
        = (Locals (documents l) (processed_count l) (skipped_count l + 1),
           echo line w).
Proof.
  intros H10 H12. split_and!.
  - intros H3. by apply map_ca_fields_flexible_other.
  - apply map_ca_fields_flexible_lt_3.
  - intros filepath i l w.
    assert (len row ∉ [10; 12]) as Hlen.
    { unfold len. intros Hin.
      apply elem_of_cons in Hin as [Hin|Hin]; [lia|].
      apply elem_of_cons in Hin as [Hin|Hin]; [lia|].
      by apply elem_of_nil in Hin. }
    unfold classify_row. rewrite bool_decide_eq_false_2 by done.
    destruct (_ && _); eexists; intros mapper; reflexivity.
Qed.

Lemma map_ca_fields_flexible_other_counts_witness :
  @map_ca_fields_flexible cpython ["CA"; "T0A"]
  = raise (IndexError "list index out of range")
  ∧ ∃ line, ∀ mapper : list string → py dict,
      @classify_row cpython CA_FILE [10; 12] mapper 0 ["CA"; "T0A"]
        (Locals [] 0 0, empty_world)
      = (Locals [] 0 1, echo line empty_world).
Proof.
  destruct (map_ca_fields_flexible_other_counts cpython ["CA"; "T0A"])
    as (_ & Hshort & Hskip); [simpl; lia..|].
  split.
  - apply Hshort. simpl. lia.
  - exact (Hskip CA_FILE 0 (Locals [] 0 0) empty_world).
Defined.

(** C2 as it is stated fails: the row with no cell makes the Canada mapper
    raise an [IndexError], not a [ValueError] that names the count. *)
Lemma map_ca_fields_flexible_no_cell_index_error :
  length (@nil string) ≠ 10%nat ∧ length (@nil string) ≠ 12%nat
  ∧ @map_ca_fields_flexible cpython [] = raise (IndexError "list index out of range")
  ∧ ¬ ∃ out msg, @map_ca_fields_flexible cpython [] = (out, Raise (ValueError msg)).
Proof.
  split; [done|]. split; [done|].
  assert (@map_ca_fields_flexible cpython []
          = raise (IndexError "list index out of range")) as Hraise
    by (apply map_ca_fields_flexible_lt_3; simpl; lia).
  split; [exact Hraise|]. rewrite Hraise. by intros (out & msg & [=]).
Qed.

(** A row of three cells or more whose length is neither 10 nor 12 makes the
    Canada mapper raise a [ValueError] whose message names the length. *)
Theorem map_ca_fields_flexible_unexpected_count (B : Builtins) (row : list string) :
  (3 ≤ length row)%nat → length row ≠ 10%nat → length row ≠ 12%nat →
  map_ca_fields_flexible row =
    raise (ValueError ("Unexpected number of columns (" +:+ pretty (len row)
                       +:+ ") for CA data mapper. Row: " +:+ str_row row)).
Proof. apply map_ca_fields_flexible_other. Qed.

Lemma map_ca_fields_flexible_unexpected_count_witness :
  ∃ rest, @map_ca_fields_flexible cpython ca_example_11 =
    raise (ValueError ("Unexpected number of columns (11" +:+ rest)).
Proof.
  eexists.
  rewrite (map_ca_fields_flexible_unexpected_count cpython ca_example_11);
    [reflexivity|simpl; lia|simpl; lia|simpl; lia].
Defined.

(** ** The claims about the row loop and the batch writer *)

(** C3. The buffer is written to the collection as one bulk write, and
    emptied, each time it reaches 10,000 records, and what is left at the end
    of the file is written as one more bulk write when it is not empty.  So
    after the drop, the bulk writes of a file are batches of exactly 10,000
    records followed by at most one smaller, non-empty batch; put end to end
    they are the mapped records of the file in file order, which is what the
    collection then holds.  A file with 10,001 mapped rows gets exactly two
    bulk writes, of 10,000 records and of 1 record. *)
Theorem process_file_bulk_writes (B : Builtins) (filepath collection_name : string)
    (expected_columns_list : list Z) (field_mapper_func : list string → py dict)
    (fs : files) (w : world) (rows : list (list string)) :
  fs !! filepath = Some rows →
  let w' := process_file filepath collection_name expected_columns_list
              field_mapper_func fs w in
  let records := mapped_records expected_columns_list field_mapper_func rows in
  (∀ l w0, len (documents l) = 10000 →
     flush_full_batch collection_name (l, w0)
     = (Locals [] (processed_count l) (skipped_count l),
        insert_many collection_name (documents l) w0))
  ∧ (∀ l w0, len (documents l) < 10000 →
     flush_full_batch collection_name (l, w0) = (l, w0))
  ∧ ∃ batches : list (list dict),
      db_calls w' = db_calls w ++ Drop collection_name
                      :: (InsertMany collection_name <$> batches)
      ∧ concat batches = records
      ∧ (∀ (i : nat) (b : list dict), batches !! i = Some b →
           0 < len b ≤ 10000 ∧ ((S i < length batches)%nat → len b = 10000))
      ∧ contents w' collection_name = records
      ∧ (len records = 10001 →
         ∃ b1 b2, batches = [b1; b2] ∧ len b1 = 10000 ∧ len b2 = 1).
Proof.
  intros Hfile w' records. split_and!.
  - intros l w0. apply flush_full.
  - intros l w0. apply flush_not_full.
  - subst w' records.
    by apply (process_file_batches filepath collection_name expected_columns_list
                field_mapper_func fs w rows).
Qed.

Lemma us_example_record :
  ∃ doc, mapped_record [12] (@map_us_fields cpython) us_example = Some doc.
Proof.
  unfold mapped_record. rewrite bool_decide_eq_true_2 by set_solver.
  unfold us_example. rewrite map_us_fields_cells.
  unfold float_cell, int_cell. simpl truth. cbv iota.
  assert (@float_of_str cpython "34.0901" = inr 34.0901%float) as ->
    by (vm_compute; reflexivity).
  assert (@float_of_str cpython "-118.4065" = inr (-118.4065)%float) as ->
    by (vm_compute; reflexivity).
  assert (@int_of_str cpython "4" = inr 4) as -> by (vm_compute; reflexivity).
  eauto.
Qed.

Lemma us_rows_10001_records :
  len (mapped_records [12] (@map_us_fields cpython) us_rows_10001) = 10001.
Proof.
  destruct us_example_record as [doc Hdoc].
  assert (∀ n, mapped_records [12] (@map_us_fields cpython) (replicate n us_example)
               = replicate n doc) as Hall.
  { unfold mapped_records. induction n as [|n IH]; [done|].
    cbn [replicate omap list_omap]. by rewrite Hdoc, IH. }
  unfold us_rows_10001. rewrite Hall. unfold len. rewrite length_replicate. lia.
Qed.

Lemma us_file_10001_rows : us_file_10001 !! US_FILE = Some us_rows_10001.
Proof. apply lookup_singleton_eq. Qed.

Lemma process_file_bulk_writes_witness :
  ∃ b1 b2,
    db_calls (@process_file cpython US_FILE "us_zip_codes" [12]
                (@map_us_fields cpython) us_file_10001 empty_world)
    = [Drop "us_zip_codes"; InsertMany "us_zip_codes" b1; InsertMany "us_zip_codes" b2]
    ∧ len b1 = 10000 ∧ len b2 = 1
    ∧ b1 ++ b2 = mapped_records [12] (@map_us_fields cpython) us_rows_10001.
Proof.
  destruct (process_file_bulk_writes cpython US_FILE "us_zip_codes" [12]
              (@map_us_fields cpython) us_file_10001 empty_world
              us_rows_10001 us_file_10001_rows)
    as (_ & _ & batches & Hcalls & Hcat & _ & _ & Htwo).
  destruct (Htwo us_rows_10001_records) as (b1 & b2 & -> & H1 & H2).
  exists b1, b2. split; [exact Hcalls|]. split; [exact H1|]. split; [exact H2|].
  rewrite <- Hcat. cbn [concat]. by rewrite app_nil_r.
Defined.

(** C8. A row whose number of cells is not one of the expected ones (12 for
    the Spain and US files, 10 or 12 for the Canada file) yields no record:
    whatever its position in the file and whatever the header heuristic
    says, one line is printed, the row is counted as skipped, and the
    buffer, the count of processed rows and the database stay as they were.
    The rows after it are read as if it were not there: the file is not
    abandoned. *)
Theorem unexpected_length_row_is_skipped (B : Builtins)
    (filepath collection_name : string) (expected_columns_list : list Z)
    (field_mapper_func : list string → py dict) (row : list string) :
  len row ∉ expected_columns_list →
  (∀ (i : Z) (l : locals) (w : world),
     ∃ line,
       classify_row filepath expected_columns_list field_mapper_func i row (l, w)
       = (Locals (documents l) (processed_count l) (skipped_count l + 1),
          echo line w))
  ∧ ∀ (before after : list (list string)) (w : world),
      skipped_more 1
        (load_rows filepath collection_name expected_columns_list
           field_mapper_func (before ++ row :: after) w)
        (load_rows filepath collection_name expected_columns_list
           field_mapper_func (before ++ after) w).
Proof.
  intros Hlen. split.
  - intros i l w. unfold classify_row. rewrite bool_decide_eq_false_2 by done.
    destruct (_ && _); eauto.
  - intros before after w. by apply load_rows_skip.
Qed.

Lemma ca_example_11_unexpected : len ca_example_11 ∉ [10; 12].
Proof.
  unfold len. simpl. intros Hin.
  repeat (apply elem_of_cons in Hin as [Hin|Hin]; [discriminate|]).
  by apply elem_of_nil in Hin.
Qed.

Lemma unexpected_length_row_is_skipped_witness :
  skipped_more 1
    (@load_rows cpython CA_FILE "ca_zip_codes" [10; 12]
       (@map_ca_fields_flexible cpython)
       [ca_example_abc; ca_example_11; ca_example_partial] empty_world)
    (@load_rows cpython CA_FILE "ca_zip_codes" [10; 12]
       (@map_ca_fields_flexible cpython)
       [ca_example_abc; ca_example_partial] empty_world).
Proof.
  exact (proj2 (unexpected_length_row_is_skipped cpython CA_FILE "ca_zip_codes"
                  [10; 12] (@map_ca_fields_flexible cpython) ca_example_11
                  ca_example_11_unexpected)
           [ca_example_abc] [ca_example_partial] empty_world).
Defined.

(** C9. When the input file of a country does not exist, [process_file]
    prints one line and returns: no call is made on the database, and every
    collection, that country's included, is as it was.  In a whole run the
    collection of a country whose file is missing therefore still holds what
    it held before the run. *)
Theorem process_file_missing_file (B : Builtins) :
  (∀ (filepath collection_name : string) (expected_columns_list : list Z)
       (field_mapper_func : list string → py dict) (fs : files) (w : world),
     fs !! filepath = None →
     process_file filepath collection_name expected_columns_list
       field_mapper_func fs w
     = echo ("Error: File not found - " +:+ filepath +:+ ". Skipping this file.") w
     ∧ collections (process_file filepath collection_name expected_columns_list
                      field_mapper_func fs w) = collections w
     ∧ db_calls (process_file filepath collection_name expected_columns_list
                   field_mapper_func fs w) = db_calls w)
  ∧ ∀ (fs : files) (w : world),
      (fs !! ES_FILE = None →
       collections (main fs w) !! "es_zip_codes" = collections w !! "es_zip_codes")
      ∧ (fs !! US_FILE = None →
         collections (main fs w) !! "us_zip_codes" = collections w !! "us_zip_codes")
      ∧ (fs !! CA_FILE = None →
         collections (main fs w) !! "ca_zip_codes" = collections w !! "ca_zip_codes").
Proof.
  assert (∀ (filepath collection_name : string) (expected_columns_list : list Z)
            (field_mapper_func : list string → py dict) (fs : files) (w : world),
          fs !! filepath = None →
          process_file filepath collection_name expected_columns_list
            field_mapper_func fs w
          = echo ("Error: File not found - " +:+ filepath +:+ ". Skipping this file.") w)
    as Hmissing.
  { intros filepath collection_name expected mapper fs w Hfile.
    unfold process_file. by rewrite Hfile. }
  split.
  - intros filepath collection_name expected mapper fs w Hfile.
    by rewrite (Hmissing _ _ _ _ _ _ Hfile).
  - intros fs w. unfold main. cbv zeta.
    assert (∀ line w0, collections (echo line w0) = collections w0) as Hecho by done.
    split_and!; intros Hfile.
    + rewrite Hecho, !process_file_frame by done.
      by rewrite (Hmissing _ _ _ _ _ _ Hfile), !Hecho.
    + rewrite Hecho, process_file_frame by done.
      rewrite (Hmissing _ _ _ _ _ _ Hfile), Hecho, process_file_frame by done.
      by rewrite !Hecho.
    + rewrite Hecho, (Hmissing _ _ _ _ _ _ Hfile), Hecho, !process_file_frame by done.
      by rewrite !Hecho.
Qed.

Lemma process_file_missing_file_witness :
  collections (@process_file cpython ES_FILE "es_zip_codes" [12]
                 (@map_es_fields cpython) ∅ loaded_world) = collections loaded_world
  ∧ db_calls (@process_file cpython ES_FILE "es_zip_codes" [12]
                (@map_es_fields cpython) ∅ loaded_world) = db_calls loaded_world.
Proof.
  exact (proj2 (proj1 (process_file_missing_file cpython) ES_FILE "es_zip_codes" [12]
                  (@map_es_fields cpython) ∅ loaded_world (lookup_empty ES_FILE))).
Defined.

(** ** Counts and reloading *)

(** Every row of a file is counted once: as processed when it contributes a
    record, as skipped otherwise. *)
Theorem load_rows_counts (B : Builtins) (filepath collection_name : string)
    (expected_columns_list : list Z) (field_mapper_func : list string → py dict)
    (rows : list (list string)) (w : world) :
  let l := (load_rows filepath collection_name expected_columns_list
              field_mapper_func rows w).1 in
  let records := mapped_records expected_columns_list field_mapper_func rows in
  processed_count l = len records
  ∧ skipped_count l = len rows - len records
  ∧ processed_count l + skipped_count l = len rows.
Proof.
  intros l records. subst l records.
  destruct (load_rows_batches filepath collection_name expected_columns_list
              field_mapper_func rows w) as (_ & _ & _ & _ & _ & _ & Hp & Hs).
  rewrite Hp, Hs. split_and!; try done. lia.
Qed.

(** Loading a file a second time leaves its collection with the documents
    it had after the first time. *)
Theorem process_file_idempotent (B : Builtins) (filepath collection_name : string)
    (expected_columns_list : list Z) (field_mapper_func : list string → py dict)
    (fs : files) (w : world) :
  let run := process_file filepath collection_name expected_columns_list
               field_mapper_func fs in
  contents (run (run w)) collection_name = contents (run w) collection_name.
Proof.
  intros run. subst run. destruct (fs !! filepath) as [rows|] eqn:Hfile.
  - destruct (process_file_batches filepath collection_name expected_columns_list
                field_mapper_func fs w rows Hfile) as (_ & _ & _ & _ & -> & _).
    by destruct (process_file_batches filepath collection_name expected_columns_list
                   field_mapper_func fs
                   (process_file filepath collection_name expected_columns_list
                      field_mapper_func fs w) rows Hfile) as (_ & _ & _ & _ & -> & _).
  - unfold process_file. by rewrite Hfile.
Qed.

(** ** CPython's conversions on sample cells *)

Example float_of_str_accepts :
  CPython.float_of_str "34.0901" = inr 34.0901%float
  ∧ CPython.float_of_str "-118.4065" = inr (-118.4065)%float
  ∧ CPython.float_of_str "0.1" = inr 0.1%float
  ∧ CPython.float_of_str " 1_000.5 " = inr 1000.5%float
  ∧ CPython.float_of_str "+.5e1" = inr 5%float
  ∧ CPython.float_of_str "1e23" = inr 1e23%float
  ∧ CPython.float_of_str "9007199254740993" = inr 9007199254740992%float
  ∧ CPython.float_of_str "2.2250738585072011e-308" = inr 2.2250738585072011e-308%float
  ∧ CPython.float_of_str "1.7976931348623157e308" = inr 1.7976931348623157e308%float
  ∧ CPython.float_of_str "1.7976931348623159e308" = inr infinity
  ∧ CPython.float_of_str "2.5e-324" = inr 5e-324%float
  ∧ CPython.float_of_str "2.4e-324" = inr 0%float
  ∧ CPython.float_of_str "-0" = inr neg_zero
  ∧ CPython.float_of_str "-inF" = inr neg_infinity
  ∧ CPython.float_of_str "Infinity" = inr infinity
  ∧ CPython.float_of_str "nan" = inr nan.
Proof. repeat split; vm_compute; reflexivity. Qed.

Example float_of_str_rejects :
  Forall (λ s, ∃ msg, CPython.float_of_str s = inl msg)
    ["abc"; " "; "1__0"; "_1"; "1_"; "1e"; "1e+"; "."; "0x10"; "1 2"; "--1";
     "infinit"; "1,5"].
Proof. repeat constructor; eexists; vm_compute; reflexivity. Qed.

Example int_of_str_accepts :
  CPython.int_of_str "4" = inr 4
  ∧ CPython.int_of_str " +1_000 " = inr 1000
  ∧ CPython.int_of_str "-0012" = inr (-12)
  ∧ CPython.int_of_str "6" = inr 6.
Proof. repeat split; vm_compute; reflexivity. Qed.

Example int_of_str_rejects :
  Forall (λ s, ∃ msg, CPython.int_of_str s = inl msg)
    ["abc"; " "; "4.0"; "1__0"; "_1"; "1_"; "+"; "+ 1"; "1e3"; "0x10"; "1 2"].
Proof. repeat constructor; eexists; vm_compute; reflexivity. Qed.

Example int_of_str_message :
  CPython.int_of_str "4.0" = inl "invalid literal for int() with base 10: '4.0'"
  ∧ CPython.float_of_str "abc" = inl "could not convert string to float: 'abc'".
Proof. split; vm_compute; reflexivity. Qed.


(** * Further properties of the code *)

(** ** The mappers on rows of any length *)

Section MapperBounds.
Context {B : Builtins}.

Lemma bind_return_inv {A A' : Type} (m : py A) (k : A → py A')
    (out : list string) (b : A') :
  m ≫= k = (out, Return b) →
  ∃ a o1 o2, m = (o1, Return a) ∧ k a = (o2, Return b).
Proof.
  destruct m as [o1 [a|e]]; unfold mbind, py_bind; [|done].
  destruct (k a) as [o2 r] eqn:Hk. intros [= _ ->]. eauto.
Qed.

Lemma getitem_return_inv (row : list string) (i : nat) (out : list string)
    (c : string) :
  getitem row i = (out, Return c) → row !! i = Some c.
Proof. unfold getitem. destruct (row !! i); [|done]. by intros [= _ ->]. Qed.

(** A record returned by the Spain or the US mapper means that the row has
    a cell 11. *)
Lemma es_us_return_length (row : list string) (out : list string) (doc : dict) :
  map_es_fields row = (out, Return doc) ∨ map_us_fields row = (out, Return doc) →
  (11 < length row)%nat.
Proof.
  intros [H|H]; unfold map_es_fields, map_us_fields in H;
    repeat (apply bind_return_inv in H as (? & ? & ? & ? & H); cbv beta in H);
    match goal with
    | Hacc : int_or_none row 11 = _ |- _ =>
        unfold int_or_none in Hacc;
        apply bind_return_inv in Hacc as (? & ? & ? & Hcell & _);
        apply getitem_return_inv in Hcell; by eapply lookup_lt_Some
    end.
Qed.

(** The mappers on a row with twelve cells or more. *)
Lemma map_es_fields_cells_more (c0 c1 c2 c3 c4 c5 c6 c7 c8 c9 c10 c11 : string)
    (more : list string) :
  map_es_fields (c0 :: c1 :: c2 :: c3 :: c4 :: c5 :: c6 :: c7 :: c8 :: c9
                 :: c10 :: c11 :: more)
  = map_es_fields [c0; c1; c2; c3; c4; c5; c6; c7; c8; c9; c10; c11].
Proof.
  unfold map_es_fields.
  rewrite !(str_or_none_cell _ 7 c7), !(str_or_none_cell _ 8 c8),
    !(float_or_none_cell _ 9 c9), !(float_or_none_cell _ 10 c10),
    !(int_or_none_cell _ 11 c11) by done.
  reflexivity.
Qed.

Lemma map_us_fields_cells_more (c0 c1 c2 c3 c4 c5 c6 c7 c8 c9 c10 c11 : string)
    (more : list string) :
  map_us_fields (c0 :: c1 :: c2 :: c3 :: c4 :: c5 :: c6 :: c7 :: c8 :: c9
                 :: c10 :: c11 :: more)
  = map_us_fields [c0; c1; c2; c3; c4; c5; c6; c7; c8; c9; c10; c11].
Proof.
  unfold map_us_fields.
  rewrite !(float_or_none_cell _ 9 c9), !(float_or_none_cell _ 10 c10),
    !(int_or_none_cell _ 11 c11) by done.
  reflexivity.
Qed.

End MapperBounds.

(** Splits a row into its first twelve cells, one case per shorter length. *)
Ltac row_prefix row :=
  do 12 (try (destruct row as [|? row])).

Ltac run_mapper :=
  unfold map_es_fields, map_us_fields, str_or_none, float_or_none, int_or_none,
    py_float, py_int, py_map, getitem;
  cbn;
  repeat (first
    [ match goal with |- context [truth ?c] => destruct (truth c) end
    | match goal with |- context [float_of_str ?c] => destruct (float_of_str c) end
    | match goal with |- context [int_of_str ?c] => destruct (int_of_str c) end ];
    cbn);
  try done.

(** A row with fewer than twelve cells makes the Spain and the US mapper
    raise, whatever the cells hold: no record is returned.  With fewer than
    ten cells the exception is the [IndexError] of the first missing cell. *)
Theorem es_us_short_row_raises (B : Builtins) (row : list string) :
  (length row < 12)%nat →
  ∀ mapper, mapper = map_es_fields ∨ mapper = map_us_fields →
    (∃ out e, mapper row = (out, Raise e))
    ∧ ((length row < 10)%nat →
       mapper row = raise (IndexError "list index out of range")).
Proof.
  intros Hlen mapper Hmapper. split.
  - destruct (mapper row) as [out [doc|e]] eqn:Hrow; [|eauto].
    assert (11 < length row)%nat; [|lia].
    apply (es_us_return_length row out doc). destruct Hmapper as [-> | ->]; auto.
  - clear Hlen. intros Hlen.
    destruct Hmapper as [-> | ->]; row_prefix row; simpl in Hlen; try lia;
      run_mapper.
Qed.

Lemma es_us_short_row_raises_witness :
  @map_us_fields cpython ["US"; "90210"; "Beverly Hills"]
  = raise (IndexError "list index out of range").
Proof.
  apply (es_us_short_row_raises cpython ["US"; "90210"; "Beverly Hills"]);
    [simpl; lia|by right|simpl; lia].
Defined.

(** Cells beyond the twelfth are not read by the Spain and US mappers. *)
Theorem es_us_extra_cells_ignored (B : Builtins) (row : list string) :
  (12 ≤ length row)%nat →
  map_es_fields row = map_es_fields (take 12 row)
  ∧ map_us_fields row = map_us_fields (take 12 row).
Proof.
  intros Hlen. row_prefix row; simpl in Hlen; try lia.
  split.
  - apply map_es_fields_cells_more.
  - apply map_us_fields_cells_more.
Qed.

Lemma es_us_extra_cells_ignored_witness :
  @map_us_fields cpython (us_example ++ ["extra"]) = @map_us_fields cpython us_example.
Proof.
  exact (proj2 (es_us_extra_cells_ignored cpython (us_example ++ ["extra"])
                  ltac:(simpl; lia))).
Defined.

(** On every row the US mapper does what the Spain mapper does, less the
    two admin3 fields: it returns the Spain record without them when the
    Spain mapper returns, and raises what the Spain mapper raises. *)
Theorem map_us_fields_is_map_es_fields_less_admin3 (B : Builtins)
    (row : list string) :
  map_us_fields row
  = py_map (λ doc, delete "admin3_code" (delete "admin3_name" doc))
      (map_es_fields row).
Proof.
  row_prefix row.
  13: { rewrite map_us_fields_cells_more, map_es_fields_cells_more,
          map_us_fields_cells, map_es_fields_cells.
        unfold py_map. cbn.
        repeat match goal with
               | |- context [float_cell ?c] => destruct (float_cell c)
               | |- context [int_cell ?c] => destruct (int_cell c)
               end; done. }
  all: run_mapper.
Qed.


(** ** The Canada mapper: warnings, and agreement with the Spain mapper *)

Section CanadaWarnings.
Context {B : Builtins}.

(** The [try] block on three cells that exist, by the outcome of the three
    conversions. *)
Lemma try_lat_lon_acc_result (columns : string) (i j k : nat) (row : list string)
    (doc : dict) (lat lon acc : string) :
  row !! i = Some lat → row !! j = Some lon → row !! k = Some acc →
  try_lat_lon_acc columns i j k row doc =
    match float_cell lat, float_cell lon, int_cell acc with
    | Return vlat, Return vlon, Return vacc =>
        mret (<["accuracy" := vacc]>
                (<["longitude" := vlon]> (<["latitude" := vlat]> doc)))
    | Return vlat, Return vlon, Raise e =>
        ([ "Warning: Could not parse lat/lon/acc for " +:+ columns
           +:+ "-column CA row: " +:+ str_row row
           +:+ " - Error: " +:+ str_exn e ],
         Return (<["longitude" := vlon]> (<["latitude" := vlat]> doc)))
    | Return vlat, Raise e, _ =>
        ([ "Warning: Could not parse lat/lon/acc for " +:+ columns
           +:+ "-column CA row: " +:+ str_row row
           +:+ " - Error: " +:+ str_exn e ],
         Return (<["latitude" := vlat]> doc))
    | Raise e, _, _ =>
        ([ "Warning: Could not parse lat/lon/acc for " +:+ columns
           +:+ "-column CA row: " +:+ str_row row
           +:+ " - Error: " +:+ str_exn e ],
         Return doc)
    end.
Proof.
  intros Hi Hj Hk. unfold try_lat_lon_acc. cbn.
  rewrite (float_or_none_cell _ _ _ Hi), (float_or_none_cell _ _ _ Hj),
    (int_or_none_cell _ _ _ Hk).
  destruct (float_cell lat) as [vlat|e1] eqn:E1.
  2:{ apply float_cell_raise in E1 as [_ [msg ->]]. reflexivity. }
  destruct (float_cell lon) as [vlon|e2] eqn:E2.
  2:{ apply float_cell_raise in E2 as [_ [msg ->]]. reflexivity. }
  destruct (int_cell acc) as [vacc|e3] eqn:E3.
  2:{ apply int_cell_raise in E3 as [_ [msg ->]]. reflexivity. }
  reflexivity.
Qed.

Lemma no_bad_cell_iff (lat lon acc : string) :
  ¬ (bad_float lat ∨ bad_float lon ∨ bad_int acc)
  ↔ ∃ vlat vlon vacc, float_cell lat = Return vlat ∧ float_cell lon = Return vlon
      ∧ int_cell acc = Return vacc.
Proof.
  split.
  - intros Hok.
    destruct (float_cell lat) as [vlat|e1] eqn:E1;
      [|apply float_cell_raise in E1 as [? _]; tauto].
    destruct (float_cell lon) as [vlon|e2] eqn:E2;
      [|apply float_cell_raise in E2 as [? _]; tauto].
    destruct (int_cell acc) as [vacc|e3] eqn:E3;
      [|apply int_cell_raise in E3 as [? _]; tauto].
    by exists vlat, vlon, vacc.
  - intros (vlat & vlon & vacc & E1 & E2 & E3) [Hb|[Hb|Hb]].
    + apply bad_float_raise in Hb as [? ?]. congruence.
    + apply bad_float_raise in Hb as [? ?]. congruence.
    + apply bad_int_raise in Hb as [? ?]. congruence.
Qed.

(** The Canada mapper on ten and on twelve cells, as the [try] block run on
    the document built before it. *)
Lemma map_ca_fields_flexible_10_try (c0 c1 c2 c3 c4 c5 c6 c7 c8 c9 : string) :
  let row := [c0; c1; c2; c3; c4; c5; c6; c7; c8; c9] in
  map_ca_fields_flexible row =
    try_lat_lon_acc "10" 7 8 9 row (dict_display [
      ("country_code", VStr c0); ("postal_code", VStr c1);
      ("place_name", VStr c2);
      ("admin1_name", text_cell c3); ("admin1_code", text_cell c4);
      ("admin2_name", text_cell c5); ("admin2_code", text_cell c6);
      ("admin3_name", VNone); ("admin3_code", VNone);
      ("latitude", VNone); ("longitude", VNone); ("accuracy", VNone) ]).
Proof.
  intros row. subst row. unfold map_ca_fields_flexible, str_in_range_or_none.
  change (len _ >? Z.of_nat 3) with true. change (len _ >? Z.of_nat 4) with true.
  change (len _ =? 10) with true. cbv iota.
  rewrite (str_or_none_cell _ 3 c3), (str_or_none_cell _ 4 c4),
    (str_or_none_cell _ 5 c5), (str_or_none_cell _ 6 c6) by done.
  cbn [getitem lookup list_lookup mbind py_bind mret py_ret app].
  match goal with |- _ = try_lat_lon_acc _ _ _ _ _ ?d' =>
    match goal with |- context [try_lat_lon_acc ?t ?i ?j ?k ?r ?d] =>
      change d with d'
    end;
    by destruct (try_lat_lon_acc _ _ _ _ _ d') as [out res]
  end.
Qed.

Lemma map_ca_fields_flexible_12_try
    (c0 c1 c2 c3 c4 c5 c6 c7 c8 c9 c10 c11 : string) :
  let row := [c0; c1; c2; c3; c4; c5; c6; c7; c8; c9; c10; c11] in
  map_ca_fields_flexible row =
    try_lat_lon_acc "12" 9 10 11 row (dict_display [
      ("country_code", VStr c0); ("postal_code", VStr c1);
      ("place_name", VStr c2);
      ("admin1_name", text_cell c3); ("admin1_code", text_cell c4);
      ("admin2_name", text_cell c5); ("admin2_code", text_cell c6);
      ("admin3_name", text_cell c7); ("admin3_code", text_cell c8);
      ("latitude", VNone); ("longitude", VNone); ("accuracy", VNone) ]).
Proof.
  intros row. subst row. unfold map_ca_fields_flexible, str_in_range_or_none.
  change (len _ >? Z.of_nat 3) with true. change (len _ >? Z.of_nat 4) with true.
  change (len _ =? 10) with false. change (len _ =? 12) with true. cbv iota.
  rewrite (str_or_none_cell _ 3 c3), (str_or_none_cell _ 4 c4),
    (str_or_none_cell _ 5 c5), (str_or_none_cell _ 6 c6),
    (str_or_none_cell _ 7 c7), (str_or_none_cell _ 8 c8) by done.
  cbn [getitem lookup list_lookup mbind py_bind mret py_ret app].
  match goal with |- _ = try_lat_lon_acc _ _ _ _ _ ?d' =>
    match goal with |- context [try_lat_lon_acc ?t ?i ?j ?k ?r ?d] =>
      change d with d'
    end;
    by destruct (try_lat_lon_acc _ _ _ _ _ d') as [out res]
  end.
Qed.


(** The lines the [try] block prints, by the first cell it rejects. *)
Lemma try_lat_lon_acc_printed (columns : string) (i j k : nat) (row : list string)
    (doc : dict) (lat lon acc : string) :
  row !! i = Some lat → row !! j = Some lon → row !! k = Some acc →
  let out := (try_lat_lon_acc columns i j k row doc).1 in
  (¬ (bad_float lat ∨ bad_float lon ∨ bad_int acc) → out = [])
  ∧ (∀ msg, lat ≠ "" → float_of_str lat = inl msg →
       out = [ca_warning columns row msg])
  ∧ (∀ msg, ¬ bad_float lat → lon ≠ "" → float_of_str lon = inl msg →
       out = [ca_warning columns row msg])
  ∧ (∀ msg, ¬ bad_float lat → ¬ bad_float lon → acc ≠ "" →
       int_of_str acc = inl msg → out = [ca_warning columns row msg]).
Proof.
  intros Hi Hj Hk out. subst out.
  rewrite (try_lat_lon_acc_result _ _ _ _ _ _ _ _ _ Hi Hj Hk).
  assert (∀ c e, float_cell c = Raise e → bad_float c) as Hf
    by (intros c e H; by apply float_cell_raise in H as [? _]).
  assert (∀ c msg, c ≠ "" → float_of_str c = inl msg →
            float_cell c = Raise (ValueError msg)) as Hfr.
  { intros c msg Hc%truth_true E. unfold float_cell. by rewrite Hc, E. }
  assert (∀ c msg, c ≠ "" → int_of_str c = inl msg →
            int_cell c = Raise (ValueError msg)) as Hir.
  { intros c msg Hc%truth_true E. unfold int_cell. by rewrite Hc, E. }
  split_and!.
  - intros (vlat & vlon & vacc & E1 & E2 & E3)%no_bad_cell_iff.
    by rewrite E1, E2, E3.
  - intros msg Hne E. by rewrite (Hfr _ _ Hne E).
  - intros msg H1 Hne E. rewrite (Hfr _ _ Hne E).
    destruct (float_cell lat) as [vlat|e1] eqn:E1; [done|].
    destruct H1. by eapply Hf.
  - intros msg H1 H2 Hne E. rewrite (Hir _ _ Hne E).
    destruct (float_cell lat) as [vlat|e1] eqn:E1; [|destruct H1; by eapply Hf].
    destruct (float_cell lon) as [vlon|e2] eqn:E2; [|destruct H2; by eapply Hf].
    done.
Qed.

End CanadaWarnings.

(** A Canada row of ten or of twelve cells makes the mapper print
    nothing when none of its last three cells (latitude, longitude,
    accuracy) is rejected, and otherwise exactly one warning, which carries
    the message of the first of the three cells that is rejected. *)
Theorem map_ca_fields_flexible_warns_once (B : Builtins) (row : list string)
    (lat lon acc : string) :
  (length row = 10 ∨ length row = 12)%nat →
  row !! (length row - 3)%nat = Some lat →
  row !! (length row - 2)%nat = Some lon →
  row !! (length row - 1)%nat = Some acc →
  let out := (map_ca_fields_flexible row).1 in
  let columns := pretty (len row) in
  (¬ (bad_float lat ∨ bad_float lon ∨ bad_int acc) → out = [])
  ∧ (∀ msg, lat ≠ "" → float_of_str lat = inl msg →
       out = [ca_warning columns row msg])
  ∧ (∀ msg, ¬ bad_float lat → lon ≠ "" → float_of_str lon = inl msg →
       out = [ca_warning columns row msg])
  ∧ (∀ msg, ¬ bad_float lat → ¬ bad_float lon → acc ≠ "" →
       int_of_str acc = inl msg → out = [ca_warning columns row msg]).
Proof.
  intros [Hlen|Hlen] Hi Hj Hk; rewrite Hlen in Hi, Hj, Hk; unfold len;
    rewrite Hlen; do 13 (try (destruct row as [|? row])); try done.
  - rewrite map_ca_fields_flexible_10_try.
    by apply (try_lat_lon_acc_printed "10" 7 8 9).
  - rewrite map_ca_fields_flexible_12_try.
    by apply (try_lat_lon_acc_printed "12" 9 10 11).
Qed.

Lemma map_ca_fields_flexible_warns_once_witness :
  (@map_ca_fields_flexible cpython ca_example_abc).1 =
    [@ca_warning cpython "10" ca_example_abc
       "could not convert string to float: 'abc'"].
Proof.
  refine (proj1 (proj2 (map_ca_fields_flexible_warns_once cpython ca_example_abc
    "abc" "-110.729" "6" (or_introl eq_refl) eq_refl eq_refl eq_refl)) _ _ _).
  - done.
  - vm_compute. reflexivity.
Defined.

(** On a row of twelve cells whose cells 3 to 6 are not empty and that
    the Spain mapper accepts, the Canada mapper returns the record of the
    Spain mapper, and prints nothing. *)
Theorem map_ca_fields_flexible_agrees_with_map_es_fields (B : Builtins)
    (row : list string) :
  length row = 12%nat →
  (∀ i c, (3 ≤ i ≤ 6)%nat → row !! i = Some c → c ≠ "") →
  (∃ out doc, map_es_fields row = (out, Return doc)) →
  map_ca_fields_flexible row = map_es_fields row.
Proof.
  intros Hlen Hcells (out & doc & Hes).
  do 13 (try (destruct row as [|? row])); try done.
  pose proof (Hcells 3%nat _ ltac:(lia) eq_refl) as H3%truth_true.
  pose proof (Hcells 4%nat _ ltac:(lia) eq_refl) as H4%truth_true.
  pose proof (Hcells 5%nat _ ltac:(lia) eq_refl) as H5%truth_true.
  pose proof (Hcells 6%nat _ ltac:(lia) eq_refl) as H6%truth_true.
  revert Hes. rewrite map_ca_fields_flexible_12_try.
  match goal with |- context [try_lat_lon_acc _ _ _ _ ?r ?d] =>
    rewrite (try_lat_lon_acc_result "12" 9 10 11 r d _ _ _ eq_refl eq_refl eq_refl)
  end.
  rewrite map_es_fields_cells.
  assert (∀ c, truth c = true → text_cell c = VStr c) as Htext
    by (intros c Hc; unfold text_cell; by rewrite Hc).
  rewrite (Htext _ H3), (Htext _ H4), (Htext _ H5), (Htext _ H6).
  destruct (float_cell _) as [vlat|?]; [|done].
  destruct (float_cell _) as [vlon|?]; [|done].
  destruct (int_cell _) as [vacc|?]; [|done].
  reflexivity.
Qed.

Lemma map_ca_fields_flexible_agrees_with_map_es_fields_witness :
  @map_ca_fields_flexible cpython es_example = @map_es_fields cpython es_example.
Proof.
  apply (map_ca_fields_flexible_agrees_with_map_es_fields cpython es_example).
  - reflexivity.
  - intros i c Hi. do 7 (destruct i as [|i]; [simpl; try lia; by intros [= <-]|]).
    lia.
  - destruct (@map_es_fields cpython es_example) as [out [doc|e]] eqn:E; [eauto|].
    exfalso. revert E. unfold es_example. rewrite map_es_fields_cells.
    assert (@float_cell cpython "36.8381" = Return (VFloat 36.8381%float)) as ->
      by (vm_compute; reflexivity).
    assert (@float_cell cpython "-2.4597" = Return (VFloat (-2.4597)%float)) as ->
      by (vm_compute; reflexivity).
    assert (@int_cell cpython "4" = Return (VInt 4)) as ->
      by (vm_compute; reflexivity).
    done.
Defined.

(** ** The shape of the records *)

Section RecordShapes.
Context {B : Builtins}.

Lemma text_cell_shape (c : string) : is_text_or_none (text_cell c).
Proof.
  destruct (text_cell_optional c) as [[_ ->]|[Hc ->]]; [by left|right; eauto].
Qed.

Lemma parsed_float_shape (c : string) (v : value) :
  parsed_float c v → is_float_or_none v.
Proof. intros [[_ ->]|(_ & x & _ & ->)]; [by left|right; eauto]. Qed.

Lemma parsed_int_shape (c : string) (v : value) :
  parsed_int c v → is_int_or_none v.
Proof. intros [[_ ->]|(_ & n & _ & ->)]; [by left|right; eauto]. Qed.

Lemma float_cell_shape (c : string) (v : value) :
  float_cell c = Return v → is_float_or_none v.
Proof. intros H%float_cell_return. by eapply parsed_float_shape. Qed.

Lemma int_cell_shape (c : string) (v : value) :
  int_cell c = Return v → is_int_or_none v.
Proof. intros H%int_cell_return. by eapply parsed_int_shape. Qed.

Lemma ca_numeric_fields_shape (lat lon acc : string) (vlat vlon vacc : value) :
  ca_numeric_fields lat lon acc vlat vlon vacc →
  is_float_or_none vlat ∧ is_float_or_none vlon ∧ is_int_or_none vacc.
Proof.
  intros [(_ & -> & -> & ->)|[(H1 & _ & -> & ->)|[(H1 & H2 & _ & ->)|(H1 & H2 & H3)]]];
    split_and!;
    first [ by left | by eapply parsed_float_shape | by eapply parsed_int_shape ].
Qed.

Lemma twelve_fields_dom (v0 v1 v2 v3 v4 v5 v6 v7 v8 v9 v10 v11 : value) :
  dom (dict_display [
    ("country_code", v0); ("postal_code", v1); ("place_name", v2);
    ("admin1_name", v3); ("admin1_code", v4);
    ("admin2_name", v5); ("admin2_code", v6);
    ("admin3_name", v7); ("admin3_code", v8);
    ("latitude", v9); ("longitude", v10); ("accuracy", v11) ]) = twelve_fields.
Proof.
  unfold dict_display, twelve_fields. cbn [foldl fst snd].
  rewrite !dom_insert_L, dom_empty_L. set_solver.
Qed.

Lemma ten_fields_dom (v0 v1 v2 v3 v4 v5 v6 v9 v10 v11 : value) :
  dom (dict_display [
    ("country_code", v0); ("postal_code", v1); ("place_name", v2);
    ("admin1_name", v3); ("admin1_code", v4);
    ("admin2_name", v5); ("admin2_code", v6);
    ("latitude", v9); ("longitude", v10); ("accuracy", v11) ]) = ten_fields.
Proof.
  unfold dict_display, ten_fields. cbn [foldl fst snd].
  rewrite !dom_insert_L, dom_empty_L. set_solver.
Qed.

Lemma has_intro (doc : dict) (field : string) (P : value → Prop) (v : value) :
  doc !! field = Some v → P v → has doc field P.
Proof. intros. by exists v. Qed.

Lemma is_text_VStr (s : string) : is_text (VStr s).
Proof. by exists s. Qed.

Lemma es_record_shape (row : list string) (doc : dict) :
  mapped_record [12] map_es_fields row = Some doc → es_document doc.
Proof.
  unfold mapped_record. case_bool_decide as Hlen; [|done].
  apply list_elem_of_singleton in Hlen. unfold len in Hlen.
  destruct row as [|c0 [|c1 [|c2 [|c3 [|c4 [|c5 [|c6 [|c7 [|c8 [|c9 [|c10 [|c11
    [|c12 row]]]]]]]]]]]]]; try (simpl in Hlen; lia).
  rewrite map_es_fields_cells.
  destruct (float_cell c9) as [vlat|?] eqn:E1; [|done].
  destruct (float_cell c10) as [vlon|?] eqn:E2; [|done].
  destruct (int_cell c11) as [vacc|?] eqn:E3; [|done].
  intros [= <-]. apply float_cell_shape in E1, E2. apply int_cell_shape in E3.
  split; [apply twelve_fields_dom|].
  unfold numeric_fields.
  split_and!; (eapply has_intro; [reflexivity|]);
    first [ apply is_text_VStr | apply text_cell_shape | done ].
Qed.

Lemma us_record_shape (row : list string) (doc : dict) :
  mapped_record [12] map_us_fields row = Some doc → us_document doc.
Proof.
  unfold mapped_record. case_bool_decide as Hlen; [|done].
  apply list_elem_of_singleton in Hlen. unfold len in Hlen.
  destruct row as [|c0 [|c1 [|c2 [|c3 [|c4 [|c5 [|c6 [|c7 [|c8 [|c9 [|c10 [|c11
    [|c12 row]]]]]]]]]]]]]; try (simpl in Hlen; lia).
  rewrite map_us_fields_cells.
  destruct (float_cell c9) as [vlat|?] eqn:E1; [|done].
  destruct (float_cell c10) as [vlon|?] eqn:E2; [|done].
  destruct (int_cell c11) as [vacc|?] eqn:E3; [|done].
  intros [= <-]. apply float_cell_shape in E1, E2. apply int_cell_shape in E3.
  split; [apply ten_fields_dom|].
  unfold numeric_fields.
  split_and!; (eapply has_intro; [reflexivity|]);
    first [ apply is_text_VStr | done ].
Qed.

Lemma ca_record_shape (row : list string) (doc : dict) :
  mapped_record [10; 12] map_ca_fields_flexible row = Some doc → ca_document doc.
Proof.
  unfold mapped_record. case_bool_decide as Hlen; [|done].
  apply elem_of_cons in Hlen as [Hlen|Hlen%list_elem_of_singleton];
    unfold len in Hlen;
    do 13 (try (destruct row as [|? row])); try (simpl in Hlen; lia).
  - match goal with |- context [map_ca_fields_flexible [?c0; ?c1; ?c2; ?c3; ?c4; ?c5; ?c6; ?c7; ?c8; ?c9]] =>
      destruct (map_ca_fields_flexible_10 c0 c1 c2 c3 c4 c5 c6 c7 c8 c9)
        as (out & vlat & vlon & vacc & -> & (H1 & H2 & H3)%ca_numeric_fields_shape)
    end.
    intros [= <-]. split; [apply twelve_fields_dom|].
    unfold numeric_fields.
    split_and!; (eapply has_intro; [reflexivity|]);
      first [ apply is_text_VStr | apply text_cell_shape | by left | done ].
  - match goal with |- context [map_ca_fields_flexible [?c0; ?c1; ?c2; ?c3; ?c4; ?c5; ?c6; ?c7; ?c8; ?c9; ?c10; ?c11]] =>
      destruct (map_ca_fields_flexible_12 c0 c1 c2 c3 c4 c5 c6 c7 c8 c9 c10 c11)
        as (out & vlat & vlon & vacc & -> & (H1 & H2 & H3)%ca_numeric_fields_shape)
    end.
    intros [= <-]. split; [apply twelve_fields_dom|].
    unfold numeric_fields.
    split_and!; (eapply has_intro; [reflexivity|]);
      first [ apply is_text_VStr | apply text_cell_shape | done ].
Qed.

(** Every record of a file has the shape the records of its rows have. *)
Lemma mapped_records_Forall (expected : list Z) (mapper : list string → py dict)
    (P : dict → Prop) (rows : list (list string)) :
  (∀ row doc, mapped_record expected mapper row = Some doc → P doc) →
  Forall P (mapped_records expected mapper rows).
Proof.
  intros HP. apply Forall_forall. intros doc.
  unfold mapped_records. intros (row & _ & Hrow)%list_elem_of_omap. eauto.
Qed.

End RecordShapes.

(** ** Which rows are loaded *)

Section AcceptedRows.
Context {B : Builtins}.

Lemma float_cell_ok_return (c : string) :
  float_cell_ok c = true ↔ ∃ v, float_cell c = Return v.
Proof.
  unfold float_cell_ok, float_cell.
  destruct (truth c); simpl; [|split; [by exists VNone|done]].
  destruct (float_of_str c); split; try done; [by intros [? ?]|by eexists].
Qed.

Lemma int_cell_ok_return (c : string) :
  int_cell_ok c = true ↔ ∃ v, int_cell c = Return v.
Proof.
  unfold int_cell_ok, int_cell.
  destruct (truth c); simpl; [|split; [by exists VNone|done]].
  destruct (int_of_str c); split; try done; [by intros [? ?]|by eexists].
Qed.

Lemma es_us_row_ok_cells (c0 c1 c2 c3 c4 c5 c6 c7 c8 c9 c10 c11 : string) :
  es_us_row_ok [c0; c1; c2; c3; c4; c5; c6; c7; c8; c9; c10; c11] = true
  ↔ ∃ lat lon acc, float_cell c9 = Return lat ∧ float_cell c10 = Return lon
      ∧ int_cell c11 = Return acc.
Proof.
  unfold es_us_row_ok. rewrite bool_decide_eq_true_2 by done. simpl.
  rewrite !andb_true_iff, !float_cell_ok_return, int_cell_ok_return.
  split.
  - intros [[[lat ?] [lon ?]] [acc ?]]. by exists lat, lon, acc.
  - intros (lat & lon & acc & ? & ? & ?). split_and!; by eexists.
Qed.

Lemma es_us_row_ok_len (row : list string) :
  es_us_row_ok row = true → length row = 12%nat.
Proof.
  unfold es_us_row_ok. rewrite !andb_true_iff.
  intros [[[Hlen%bool_decide_eq_true _] _] _]. unfold len in Hlen. lia.
Qed.

Lemma es_record_iff (row : list string) :
  is_Some (mapped_record [12] map_es_fields row) ↔ es_us_row_ok row = true.
Proof.
  unfold mapped_record. case_bool_decide as Hlen.
  - apply list_elem_of_singleton in Hlen. unfold len in Hlen.
    destruct row as [|c0 [|c1 [|c2 [|c3 [|c4 [|c5 [|c6 [|c7 [|c8 [|c9 [|c10 [|c11
      [|c12 row]]]]]]]]]]]]]; try (simpl in Hlen; lia).
    rewrite map_es_fields_cells, es_us_row_ok_cells.
    destruct (float_cell c9) as [vlat|?]; [|split; [by intros [? ?]|by intros (? & ? & ? & ? & _)]].
    destruct (float_cell c10) as [vlon|?];
      [|split; [by intros [? ?]|by intros (? & ? & ? & _ & ? & _)]].
    destruct (int_cell c11) as [vacc|?];
      [|split; [by intros [? ?]|by intros (? & ? & ? & _ & _ & ?)]].
    split; [by exists vlat, vlon, vacc|done].
  - split; [by intros [? ?]|].
    intros Hok%es_us_row_ok_len. destruct Hlen. apply list_elem_of_singleton.
    unfold len. lia.
Qed.

Lemma us_record_iff (row : list string) :
  is_Some (mapped_record [12] map_us_fields row) ↔ es_us_row_ok row = true.
Proof.
  unfold mapped_record. case_bool_decide as Hlen.
  - apply list_elem_of_singleton in Hlen. unfold len in Hlen.
    destruct row as [|c0 [|c1 [|c2 [|c3 [|c4 [|c5 [|c6 [|c7 [|c8 [|c9 [|c10 [|c11
      [|c12 row]]]]]]]]]]]]]; try (simpl in Hlen; lia).
    rewrite map_us_fields_cells, es_us_row_ok_cells.
    destruct (float_cell c9) as [vlat|?]; [|split; [by intros [? ?]|by intros (? & ? & ? & ? & _)]].
    destruct (float_cell c10) as [vlon|?];
      [|split; [by intros [? ?]|by intros (? & ? & ? & _ & ? & _)]].
    destruct (int_cell c11) as [vacc|?];
      [|split; [by intros [? ?]|by intros (? & ? & ? & _ & _ & ?)]].
    split; [by exists vlat, vlon, vacc|done].
  - split; [by intros [? ?]|].
    intros Hok%es_us_row_ok_len. destruct Hlen. apply list_elem_of_singleton.
    unfold len. lia.
Qed.

Lemma ca_record_iff (row : list string) :
  is_Some (mapped_record [10; 12] map_ca_fields_flexible row)
  ↔ (len row =? 10) || (len row =? 12) = true.
Proof.
  unfold mapped_record. case_bool_decide as Hlen.
  - assert ((len row =? 10) || (len row =? 12) = true) as ->.
    { apply elem_of_cons in Hlen as [Hlen|Hlen%list_elem_of_singleton];
        by rewrite Hlen. }
    split; [done|intros _].
    apply elem_of_cons in Hlen as [Hlen|Hlen%list_elem_of_singleton];
      unfold len in Hlen;
      destruct row as [|c0 [|c1 [|c2 [|c3 [|c4 [|c5 [|c6 [|c7 [|c8 [|c9 [|c10 [|c11
        [|c12 row]]]]]]]]]]]]]; try (simpl in Hlen; lia).
    + by destruct (map_ca_fields_flexible_10 c0 c1 c2 c3 c4 c5 c6 c7 c8 c9)
        as (out & vlat & vlon & vacc & -> & _).
    + by destruct (map_ca_fields_flexible_12 c0 c1 c2 c3 c4 c5 c6 c7 c8 c9 c10 c11)
        as (out & vlat & vlon & vacc & -> & _).
  - split; [by intros [? ?]|].
    intros [H10%Z.eqb_eq|H12%Z.eqb_eq]%orb_true_iff; destruct Hlen.
    + rewrite H10. apply elem_of_cons. by left.
    + rewrite H12. apply elem_of_cons. right. by apply list_elem_of_singleton.
Qed.

(** The records of a file are as many as the rows that have one. *)
Lemma len_mapped_records (expected : list Z) (mapper : list string → py dict)
    (accepts : list string → bool) (rows : list (list string)) :
  (∀ row, is_Some (mapped_record expected mapper row) ↔ accepts row = true) →
  len (mapped_records expected mapper rows) = len (List.filter accepts rows).
Proof.
  intros Hacc. unfold len, mapped_records. f_equal.
  induction rows as [|row rows IH]; [done|]. simpl.
  specialize (Hacc row).
  destruct (mapped_record expected mapper row) as [doc|], (accepts row).
  - exact (f_equal S IH).
  - destruct Hacc as [Hacc _]. by discriminate Hacc.
  - destruct Hacc as [_ [? Hacc]]; done.
  - exact IH.
Qed.

End AcceptedRows.

(** ** Slices *)

Section Slices.
Context {A : Type}.
Implicit Types (n : nat) (l b : list A).

Lemma slices_nil n : (0 < n)%nat → slices n (@nil A) = [].
Proof.
  intros Hn. unfold slices. simpl length.
  replace ((0 + n - 1) / n)%nat with 0%nat; [done|].
  symmetry. apply Nat.div_small. lia.
Qed.

Lemma slices_cons n b l :
  (0 < n)%nat → length b = n → slices n (b ++ l) = b :: slices n l.
Proof.
  intros Hn Hb. unfold slices. rewrite length_app, Hb.
  replace ((n + length l + n - 1) / n)%nat with (S ((length l + n - 1) / n)).
  2:{ replace (n + length l + n - 1)%nat with (1 * n + (length l + n - 1))%nat by lia.
      rewrite Nat.div_add_l by lia. lia. }
  cbn [seq fmap list_fmap]. f_equal.
  - rewrite Nat.mul_0_l, drop_0, take_app_length'; done.
  - rewrite <- fmap_S_seq, <- list_fmap_compose. apply list_fmap_ext.
    intros _ i _. simpl. f_equal.
    replace (n + i * n)%nat with (length b + i * n)%nat by lia.
    by rewrite drop_app_add.
Qed.

Lemma slices_small n b :
  (0 < length b ≤ n)%nat → slices n b = [b].
Proof.
  intros Hb. unfold slices.
  replace ((length b + n - 1) / n)%nat with 1%nat.
  2:{ apply (Nat.div_unique _ _ _ (length b - 1)); lia. }
  cbn [seq fmap list_fmap]. by rewrite Nat.mul_0_l, drop_0, take_ge by lia.
Qed.

(** Batches that are full but for the last one, none empty, are the slices
    of what they hold together. *)
Lemma batches_slices n (batches : list (list A)) :
  (0 < n)%nat →
  (∀ i b, batches !! i = Some b →
     (0 < length b ≤ n)%nat ∧ ((S i < length batches)%nat → length b = n)) →
  batches = slices n (concat batches).
Proof.
  intros Hn. induction batches as [|b bs IH]; intros Hsizes.
  - by rewrite slices_nil.
  - simpl concat. destruct bs as [|b' bs].
    + simpl. rewrite app_nil_r, slices_small; [done|].
      by destruct (Hsizes 0%nat b eq_refl).
    + destruct (Hsizes 0%nat b eq_refl) as [_ Hfull].
      rewrite slices_cons by (try apply Hfull; simpl; lia).
      f_equal. apply IH. intros i c Hc.
      destruct (Hsizes (S i) c Hc) as [H1 H2]. split; [done|].
      intros Hi. apply H2. simpl in *. lia.
Qed.

Lemma concat_slices n l : (0 < n)%nat → concat (slices n l) = l.
Proof.
  intros Hn. remember (length l) as k eqn:Hk. revert l Hk.
  induction k as [k IH] using lt_wf_ind. intros l ->.
  destruct (decide (length l ≤ n)%nat) as [Hle|Hgt].
  - destruct l as [|a l]; [by rewrite slices_nil|].
    rewrite slices_small by (simpl in *; lia). simpl. by rewrite app_nil_r.
  - rewrite <- (take_drop n l) at 1.
    rewrite slices_cons by (try rewrite length_take; lia).
    simpl. rewrite (IH (length (skipn n l))); [apply take_drop| |done].
    rewrite length_drop. lia.
Qed.

End Slices.

(** ** What one file leaves behind *)

Section FileLemmas.
Context {B : Builtins}.
Variables (filepath collection_name : string).
Variable expected : list Z.
Variable mapper : list string → py dict.

Lemma classify_row_stdout (i : Z) (row : list string) (s : locals * world) :
  ∃ lines, stdout (classify_row filepath expected mapper i row s).2
           = stdout s.2 ++ lines.
Proof.
  destruct s as [l w]. unfold classify_row. case_bool_decide.
  - destruct (mapper row) as [out [d|[msg|msg]]]; simpl;
      rewrite <- ?app_assoc; eauto.
  - destruct (_ && _); simpl; eauto.
Qed.

Lemma flush_full_batch_stdout (s : locals * world) :
  stdout (flush_full_batch collection_name s).2 = stdout s.2.
Proof.
  destruct s as [l w]. unfold flush_full_batch. by repeat case_match.
Qed.

Lemma for_rows_stdout (i : Z) (rows : list (list string)) (s : locals * world) :
  ∃ lines, stdout (for_rows filepath collection_name expected mapper i rows s).2
           = stdout s.2 ++ lines.
Proof.
  revert i s. induction rows as [|row rows IH]; intros i s.
  - exists []. simpl. by rewrite app_nil_r.
  - cbn [for_rows].
    destruct (IH (i + 1)
      (flush_full_batch collection_name
         (classify_row filepath expected mapper i row s))) as [lines2 ->].
    rewrite flush_full_batch_stdout.
    destruct (classify_row_stdout i row s) as [lines1 ->].
    exists (lines1 ++ lines2). by rewrite app_assoc.
Qed.

Lemma load_rows_stdout (rows : list (list string)) (w : world) :
  ∃ lines, stdout (load_rows filepath collection_name expected mapper rows w).2
           = stdout w ++ lines.
Proof.
  unfold load_rows.
  destruct (for_rows_stdout 0 rows (Locals [] 0 0, w)) as [lines Hlines].
  destruct (for_rows _ _ _ _ _ _ _) as [l w']. exists lines.
  by destruct (nonempty (documents l)).
Qed.

(** The database calls of [process_file]. *)
Lemma process_file_calls (fs : files) (w : world) :
  db_calls (process_file filepath collection_name expected mapper fs w)
  = db_calls w
    ++ file_calls fs filepath collection_name (mapped_records expected mapper).
Proof.
  unfold file_calls. destruct (fs !! filepath) as [rows|] eqn:Hfile.
  - destruct (process_file_batches filepath collection_name expected mapper
                fs w rows Hfile) as (batches & -> & Hcat & Hsizes & _).
    rewrite <- Hcat. do 3 f_equal. apply batches_slices; [unfold BATCH_SIZE; lia|].
    intros i b Hb. destruct (Hsizes i b Hb) as [H1 H2].
    unfold len, BATCH_SIZE in *. lia.
  - unfold process_file. rewrite Hfile. simpl. by rewrite app_nil_r.
Qed.

(** The documents of the collection after [process_file]. *)
Lemma process_file_contents (fs : files) (w : world) :
  contents (process_file filepath collection_name expected mapper fs w)
    collection_name
  = file_contents fs filepath (mapped_records expected mapper)
      (contents w collection_name).
Proof.
  unfold file_contents. destruct (fs !! filepath) as [rows|] eqn:Hfile.
  - by destruct (process_file_batches filepath collection_name expected mapper
                   fs w rows Hfile) as (batches & _ & _ & _ & -> & _).
  - unfold process_file. by rewrite Hfile.
Qed.

Lemma process_file_other_contents (other : string) (fs : files) (w : world) :
  other ≠ collection_name →
  contents (process_file filepath collection_name expected mapper fs w) other
  = contents w other.
Proof.
  intros Hne. unfold contents. by rewrite process_file_frame.
Qed.

(** What [process_file] prints for a file that exists. *)
Lemma process_file_stdout (fs : files) (w : world) (rows : list (list string)) :
  fs !! filepath = Some rows →
  let records := mapped_records expected mapper rows in
  ∃ lines,
    stdout (process_file filepath collection_name expected mapper fs w)
    = stdout w
      ++ ["Processing " +:+ filepath +:+ " into '" +:+ collection_name
          +:+ "' collection..."]
      ++ lines
      ++ ["Finished processing " +:+ filepath +:+ ".";
          "Inserted " +:+ pretty (len records) +:+ " documents into '"
          +:+ collection_name +:+ "'."]
      ++ (if len rows - len records >? 0
          then ["Skipped " +:+ pretty (len rows - len records) +:+ " rows from "
                +:+ filepath +:+ "."]
          else [])
      ++ ["------------------------------"].
Proof.
  intros Hfile records. subst records. unfold process_file. rewrite Hfile.
  match goal with |- context [load_rows _ _ _ _ rows ?w1] =>
    destruct (load_rows_batches filepath collection_name expected mapper rows w1)
      as (_ & _ & _ & _ & _ & _ & Hp & Hs);
    destruct (load_rows_stdout rows w1) as [lines Hlines];
    destruct (load_rows filepath collection_name expected mapper rows w1) as [l w1']
  end.
  simpl in Hp, Hs, Hlines. exists lines. rewrite Hp, Hs.
  destruct (_ >? 0); simpl; rewrite Hlines; by rewrite <- !app_assoc.
Qed.

End FileLemmas.

(** ** The whole run *)

Section MainLemmas.
Context {B : Builtins}.

Lemma main_unfold (fs : files) (w : world) :
  main fs w =
    echo "All files processed. Data import complete."
      (process_file CA_FILE "ca_zip_codes" [10; 12] map_ca_fields_flexible fs
         (process_file US_FILE "us_zip_codes" [12] map_us_fields fs
            (process_file ES_FILE "es_zip_codes" [12] map_es_fields fs
               (echo "Successfully connected to MongoDB!"
                  (echo "Starting zip code import process..." w))))).
Proof. reflexivity. Qed.

Lemma contents_echo (line : string) (w : world) (name : string) :
  contents (echo line w) name = contents w name.
Proof. reflexivity. Qed.

Lemma main_contents (fs : files) (w : world) :
  contents (main fs w) "es_zip_codes"
  = file_contents fs ES_FILE (mapped_records [12] map_es_fields)
      (contents w "es_zip_codes")
  ∧ contents (main fs w) "us_zip_codes"
    = file_contents fs US_FILE (mapped_records [12] map_us_fields)
        (contents w "us_zip_codes")
  ∧ contents (main fs w) "ca_zip_codes"
    = file_contents fs CA_FILE (mapped_records [10; 12] map_ca_fields_flexible)
        (contents w "ca_zip_codes").
Proof.
  rewrite main_unfold. split_and!; rewrite contents_echo.
  - rewrite !process_file_other_contents by done.
    by rewrite process_file_contents, !contents_echo.
  - rewrite process_file_other_contents by done.
    rewrite process_file_contents.
    by rewrite process_file_other_contents, !contents_echo by done.
  - rewrite process_file_contents.
    by rewrite !process_file_other_contents, !contents_echo by done.
Qed.

Lemma main_other_collections (fs : files) (w : world) (other : string) :
  other ∉ ["es_zip_codes"; "us_zip_codes"; "ca_zip_codes"] →
  collections (main fs w) !! other = collections w !! other.
Proof.
  intros Hother. rewrite main_unfold.
  assert (∀ line w0, collections (echo line w0) = collections w0) as Hecho by done.
  rewrite Hecho, !process_file_frame, !Hecho; [done|..];
    intros ->; apply Hother; repeat constructor.
Qed.

Lemma main_calls (fs : files) (w : world) :
  db_calls (main fs w)
  = db_calls w
    ++ file_calls fs ES_FILE "es_zip_codes" (mapped_records [12] map_es_fields)
    ++ file_calls fs US_FILE "us_zip_codes" (mapped_records [12] map_us_fields)
    ++ file_calls fs CA_FILE "ca_zip_codes"
         (mapped_records [10; 12] map_ca_fields_flexible).
Proof.
  rewrite main_unfold.
  assert (∀ line w0, db_calls (echo line w0) = db_calls w0) as Hecho by done.
  rewrite Hecho, !process_file_calls, !Hecho. by rewrite <- !app_assoc.
Qed.

Lemma file_contents_twice (fs : files) (filepath : string)
    (records : list (list string) → list dict) (before : list dict) :
  file_contents fs filepath records (file_contents fs filepath records before)
  = file_contents fs filepath records before.
Proof. unfold file_contents. by destruct (fs !! filepath). Qed.

End MainLemmas.

(** ** Properties of a loaded file *)

(** Every document [process_file] leaves in the collection of a file
    that exists has the shape of its mapper's records: the twelve fields
    (ten for the US mapper, which has no admin3 fields) and nothing else;
    strings in the identity fields; [None] or a number in the numeric
    fields; and, in the optional text fields, [None] or a string that is
    not empty. *)
Theorem process_file_document_shape (B : Builtins)
    (filepath collection_name : string) (fs : files) (w : world)
    (rows : list (list string)) :
  fs !! filepath = Some rows →
  Forall es_document
    (contents (process_file filepath collection_name [12] map_es_fields fs w)
       collection_name)
  ∧ Forall us_document
      (contents (process_file filepath collection_name [12] map_us_fields fs w)
         collection_name)
  ∧ Forall ca_document
      (contents (process_file filepath collection_name [10; 12]
                   map_ca_fields_flexible fs w) collection_name).
Proof.
  intros Hfile. rewrite !process_file_contents. unfold file_contents.
  rewrite Hfile. split_and!; apply mapped_records_Forall.
  - apply es_record_shape.
  - apply us_record_shape.
  - apply ca_record_shape.
Qed.

Lemma process_file_document_shape_witness :
  Forall us_document
    (contents (@process_file cpython US_FILE "us_zip_codes" [12]
                 (@map_us_fields cpython) us_file_10001 empty_world)
       "us_zip_codes").
Proof.
  exact (proj1 (proj2 (process_file_document_shape cpython US_FILE "us_zip_codes"
                         us_file_10001 empty_world us_rows_10001
                         us_file_10001_rows))).
Defined.

(** With the Spain or the US mapper, the documents loaded from a
    file are as many as its rows of twelve cells whose latitude, longitude
    and accuracy cells are each empty or accepted by the conversion. *)
Theorem es_us_documents_loaded (B : Builtins)
    (filepath collection_name : string) (fs : files) (w : world)
    (rows : list (list string)) :
  fs !! filepath = Some rows →
  len (contents (process_file filepath collection_name [12] map_es_fields fs w)
         collection_name)
  = len (List.filter es_us_row_ok rows)
  ∧ len (contents (process_file filepath collection_name [12] map_us_fields fs w)
           collection_name)
    = len (List.filter es_us_row_ok rows).
Proof.
  intros Hfile. rewrite !process_file_contents. unfold file_contents.
  rewrite Hfile. split; apply len_mapped_records.
  - apply es_record_iff.
  - apply us_record_iff.
Qed.

Lemma es_us_documents_loaded_witness :
  len (contents (@process_file cpython ES_FILE "es_zip_codes" [12]
                   (@map_es_fields cpython)
                   {[ ES_FILE := [["country"; "postal code"]; es_example;
                                  ["ES"; "04001"]] ]}
                   loaded_world) "es_zip_codes") = 1.
Proof.
  rewrite (proj1 (es_us_documents_loaded cpython ES_FILE "es_zip_codes"
                    {[ ES_FILE := [["country"; "postal code"]; es_example;
                                   ["ES"; "04001"]] ]}
                    loaded_world _ (lookup_singleton_eq _ _))).
  vm_compute. reflexivity.
Defined.

(** With the Canada mapper, every row of ten or of twelve cells is
    loaded, whatever its cells hold: the documents loaded from a file are
    as many as its rows of ten or twelve cells. *)
Theorem ca_documents_loaded (B : Builtins)
    (filepath collection_name : string) (fs : files) (w : world)
    (rows : list (list string)) :
  fs !! filepath = Some rows →
  len (contents (process_file filepath collection_name [10; 12]
                   map_ca_fields_flexible fs w) collection_name)
  = len (List.filter (λ row, (len row =? 10) || (len row =? 12)) rows).
Proof.
  intros Hfile. rewrite !process_file_contents. unfold file_contents.
  rewrite Hfile. apply len_mapped_records, ca_record_iff.
Qed.

Lemma ca_documents_loaded_witness :
  len (contents (@process_file cpython CA_FILE "ca_zip_codes" [10; 12]
                   (@map_ca_fields_flexible cpython)
                   {[ CA_FILE := [ca_example_abc; ca_example_11;
                                  ca_example_partial] ]}
                   empty_world) "ca_zip_codes") = 2.
Proof.
  rewrite (ca_documents_loaded cpython CA_FILE "ca_zip_codes"
             {[ CA_FILE := [ca_example_abc; ca_example_11; ca_example_partial] ]}
             empty_world _ (lookup_singleton_eq _ _)).
  reflexivity.
Defined.

(** The calls [process_file] makes on the database for a file that
    exists are fixed by the records of the file: one drop, then the
    records in file order, 10,000 to a bulk write, the last bulk write
    holding what is left.  There are [ceil(n / 10000)] bulk writes for [n]
    records. *)
Theorem process_file_database_trace (B : Builtins)
    (filepath collection_name : string) (expected_columns_list : list Z)
    (field_mapper_func : list string → py dict) (fs : files) (w : world)
    (rows : list (list string)) :
  fs !! filepath = Some rows →
  let records := mapped_records expected_columns_list field_mapper_func rows in
  let batches := slices (Z.to_nat 10000) records in
  db_calls (process_file filepath collection_name expected_columns_list
              field_mapper_func fs w)
  = db_calls w ++ Drop collection_name :: (InsertMany collection_name <$> batches)
  ∧ len batches = (len records + 9999) / 10000
  ∧ concat batches = records.
Proof.
  intros Hfile records batches. subst records batches. split_and!.
  - rewrite process_file_calls. unfold file_calls. by rewrite Hfile.
  - unfold slices, len. rewrite length_fmap, length_seq.
    rewrite Nat2Z.inj_div. f_equal; lia.
  - apply concat_slices. lia.
Qed.

Lemma process_file_database_trace_witness :
  db_calls (@process_file cpython US_FILE "us_zip_codes" [12]
              (@map_us_fields cpython) us_file_10001 empty_world)
  = Drop "us_zip_codes"
      :: (InsertMany "us_zip_codes"
            <$> slices (Z.to_nat 10000)
                  (mapped_records [12] (@map_us_fields cpython) us_rows_10001)).
Proof.
  exact (proj1 (process_file_database_trace cpython US_FILE "us_zip_codes" [12]
                  (@map_us_fields cpython) us_file_10001 empty_world
                  us_rows_10001 us_file_10001_rows)).
Defined.

(** A file that exists and has no row that gives a record (an empty
    file, or one whose rows all have an unexpected length or are rejected
    by the mapper) empties its collection: the only call made is the drop,
    and the collection holds no document afterwards, whatever it held
    before. *)
Theorem process_file_without_records (B : Builtins)
    (filepath collection_name : string) (expected_columns_list : list Z)
    (field_mapper_func : list string → py dict) (fs : files) (w : world)
    (rows : list (list string)) :
  fs !! filepath = Some rows →
  Forall (λ row, len row ∉ expected_columns_list
                 ∨ ∃ out e, field_mapper_func row = (out, Raise e)) rows →
  db_calls (process_file filepath collection_name expected_columns_list
              field_mapper_func fs w)
  = db_calls w ++ [Drop collection_name]
  ∧ contents (process_file filepath collection_name expected_columns_list
                field_mapper_func fs w) collection_name = [].
Proof.
  intros Hfile Hrows.
  assert (mapped_records expected_columns_list field_mapper_func rows = [])
    as Hnone.
  { assert (∀ row, len row ∉ expected_columns_list
                   ∨ (∃ out e, field_mapper_func row = (out, Raise e)) →
              mapped_record expected_columns_list field_mapper_func row = None)
      as Hnorec.
    { intros row [Hlen|(out & e & Hraise)]; unfold mapped_record.
      - by rewrite bool_decide_eq_false_2.
      - rewrite Hraise. by case_bool_decide. }
    clear Hfile. unfold mapped_records.
    induction Hrows as [|row rows Hrow _ IH]; [done|].
    cbn [omap list_omap]. by rewrite (Hnorec row Hrow). }
  rewrite process_file_calls, process_file_contents.
  unfold file_calls, file_contents. rewrite Hfile, Hnone. split; [|done].
  by rewrite slices_nil by (unfold BATCH_SIZE; lia).
Qed.

Lemma process_file_without_records_witness :
  contents loaded_world "es_zip_codes" ≠ []
  ∧ contents (@process_file cpython ES_FILE "es_zip_codes" [12]
                (@map_es_fields cpython) {[ ES_FILE := [] ]} loaded_world)
      "es_zip_codes" = [].
Proof.
  split; [done|].
  exact (proj2 (process_file_without_records cpython ES_FILE "es_zip_codes" [12]
                  (@map_es_fields cpython) {[ ES_FILE := [] ]} loaded_world []
                  (lookup_singleton_eq _ _) (Forall_nil_2 _))).
Defined.

(** What [process_file] prints for a file that exists starts with
    the "Processing" line and ends with the summary; the number in the
    "Inserted" line is the number of documents the collection then holds,
    and the "Skipped" line, printed only when some row was skipped, gives
    the number of the other rows of the file. *)
Theorem process_file_summary_lines (B : Builtins)
    (filepath collection_name : string) (expected_columns_list : list Z)
    (field_mapper_func : list string → py dict) (fs : files) (w : world)
    (rows : list (list string)) :
  fs !! filepath = Some rows →
  let w' := process_file filepath collection_name expected_columns_list
              field_mapper_func fs w in
  let inserted := len (contents w' collection_name) in
  let skipped := len rows - inserted in
  ∃ lines,
    stdout w'
    = stdout w
      ++ ["Processing " +:+ filepath +:+ " into '" +:+ collection_name
          +:+ "' collection..."]
      ++ lines
      ++ ["Finished processing " +:+ filepath +:+ ".";
          "Inserted " +:+ pretty inserted +:+ " documents into '"
          +:+ collection_name +:+ "'."]
      ++ (if skipped >? 0
          then ["Skipped " +:+ pretty skipped +:+ " rows from "
                +:+ filepath +:+ "."]
          else [])
      ++ ["------------------------------"].
Proof.
  intros Hfile w' inserted skipped. subst w' inserted skipped.
  rewrite process_file_contents. unfold file_contents. rewrite Hfile.
  by apply process_file_stdout.
Qed.

Lemma process_file_summary_lines_witness :
  ∃ lines,
    stdout (@process_file cpython ES_FILE "es_zip_codes" [12]
              (@map_es_fields cpython) {[ ES_FILE := [["country"; "postal code"]] ]}
              empty_world)
    = ["Processing ES.txt into 'es_zip_codes' collection..."]
      ++ lines
      ++ ["Finished processing ES.txt.";
          "Inserted 0 documents into 'es_zip_codes'.";
          "Skipped 1 rows from ES.txt.";
          "------------------------------"].
Proof.
  destruct (process_file_summary_lines cpython ES_FILE "es_zip_codes" [12]
              (@map_es_fields cpython) {[ ES_FILE := [["country"; "postal code"]] ]}
              empty_world _ (lookup_singleton_eq _ _)) as [lines Hlines].
  exists lines. rewrite Hlines, process_file_contents.
  unfold file_contents. rewrite lookup_singleton_eq.
  rewrite (len_mapped_records [12] _ es_us_row_ok _ es_record_iff).
  reflexivity.
Defined.

(** ** Properties of the whole run *)

(** After the main program, each of the three collections holds the
    records of its file, in file order, when the file exists, and what it
    held before when it does not; every other collection of the database
    is as it was. *)
Theorem main_collections (B : Builtins) (fs : files) (w : world) :
  contents (main fs w) "es_zip_codes"
  = file_contents fs ES_FILE (mapped_records [12] map_es_fields)
      (contents w "es_zip_codes")
  ∧ contents (main fs w) "us_zip_codes"
    = file_contents fs US_FILE (mapped_records [12] map_us_fields)
        (contents w "us_zip_codes")
  ∧ contents (main fs w) "ca_zip_codes"
    = file_contents fs CA_FILE (mapped_records [10; 12] map_ca_fields_flexible)
        (contents w "ca_zip_codes")
  ∧ ∀ other, other ∉ ["es_zip_codes"; "us_zip_codes"; "ca_zip_codes"] →
      collections (main fs w) !! other = collections w !! other.
Proof.
  destruct (main_contents fs w) as (Hes & Hus & Hca).
  split_and!; try done. apply main_other_collections.
Qed.

(** The calls the main program makes on the database are those of
    the Spain file, then those of the US file, then those of the Canada
    file: for each file that exists, one drop of its collection followed by
    the bulk writes of its records, and nothing for a file that does not
    exist. *)
Theorem main_database_trace (B : Builtins) (fs : files) (w : world) :
  db_calls (main fs w)
  = db_calls w
    ++ file_calls fs ES_FILE "es_zip_codes" (mapped_records [12] map_es_fields)
    ++ file_calls fs US_FILE "us_zip_codes" (mapped_records [12] map_us_fields)
    ++ file_calls fs CA_FILE "ca_zip_codes"
         (mapped_records [10; 12] map_ca_fields_flexible).
Proof. apply main_calls. Qed.

(** Running the main program a second time on the same files leaves
    every collection with the documents it had after the first run. *)
Theorem main_idempotent (B : Builtins) (fs : files) (w : world) (name : string) :
  contents (main fs (main fs w)) name = contents (main fs w) name.
Proof.
  destruct (main_contents fs (main fs w)) as (Hes2 & Hus2 & Hca2).
  destruct (main_contents fs w) as (Hes & Hus & Hca).
  destruct (decide (name = "es_zip_codes")) as [->|Nes].
  { by rewrite Hes2, Hes, file_contents_twice. }
  destruct (decide (name = "us_zip_codes")) as [->|Nus].
  { by rewrite Hus2, Hus, file_contents_twice. }
  destruct (decide (name = "ca_zip_codes")) as [->|Nca].
  { by rewrite Hca2, Hca, file_contents_twice. }
  unfold contents. rewrite main_other_collections; [done|].
  intros Hin. repeat (apply elem_of_cons in Hin as [Hin|Hin]; [done|]).
  by apply elem_of_nil in Hin.
Qed.

(** ** The buffer, and the collections a file touches *)

(** Once the loop has read the rows of a file, the buffer holds the
    records that no full batch has taken: the last [n mod 10000] of the
    [n] records mapped so far.  It never holds 10,000 records when the
    next row is read. *)
Theorem for_rows_buffer (B : Builtins) (filepath collection_name : string)
    (expected_columns_list : list Z) (field_mapper_func : list string → py dict)
    (rows : list (list string)) (w : world) :
  let l := (for_rows filepath collection_name expected_columns_list
              field_mapper_func 0 rows (Locals [] 0 0, w)).1 in
  let records := mapped_records expected_columns_list field_mapper_func rows in
  len (documents l) = len records mod 10000
  ∧ documents l = skipn (Z.to_nat (len records - len records mod 10000)) records.
Proof.
  intros l records. subst l records.
  pose proof (loop_inv_for_rows filepath collection_name expected_columns_list
                field_mapper_func _ _ rows [] 0 _
                (loop_inv_start collection_name expected_columns_list
                   field_mapper_func w)) as Hinv.
  rewrite app_nil_l in Hinv.
  destruct (for_rows _ _ _ _ _ _ _) as [l w'].
  destruct Hinv as (batches & _ & _ & Hfull & Hcat & Hlt & _).
  simpl in Hcat, Hlt. simpl fst.
  pose proof (len_concat_full _ Hfull) as Hlen.
  pose proof (len_nonneg (documents l)) as Hpos.
  pose proof (len_nonneg batches) as Hpos'.
  rewrite <- Hcat, len_app, Hlen. unfold BATCH_SIZE in *.
  assert ((10000 * len batches + len (documents l)) mod 10000 = len (documents l))
    as ->.
  { symmetry. apply (Z.mod_unique_pos _ _ (len batches)); lia. }
  split; [done|].
  rewrite drop_app_length'; [done|]. unfold len in *. lia.
Qed.

(** [process_file] works on its own collection only: the calls made
    before stay in the trace, every call it adds is on [collection_name],
    and every other collection of the database is as it was. *)
Theorem process_file_touches_one_collection (B : Builtins)
    (filepath collection_name : string) (expected_columns_list : list Z)
    (field_mapper_func : list string → py dict) (fs : files) (w : world) :
  let w' := process_file filepath collection_name expected_columns_list
              field_mapper_func fs w in
  (∃ calls, db_calls w' = db_calls w ++ calls
            ∧ Forall (λ c, call_collection c = collection_name) calls)
  ∧ ∀ other, other ≠ collection_name →
      collections w' !! other = collections w !! other.
Proof.
  intros w'. subst w'. split.
  - eexists. split; [apply process_file_calls|].
    unfold file_calls. destruct (fs !! filepath) as [rows|]; [|done].
    constructor; [done|]. apply Forall_fmap. by apply Forall_true.
  - intros other Hne. by apply process_file_frame.
Qed.
